(** * CropSense sensor simulator: a shallow embedding of
      [server-src/sensor_simulator.py] and the properties of its
      signal generator, transport driver and control loop. *)

From Stdlib Require Import ZArith QArith List String Ascii Bool Lia.
From Stdlib Require Import DecimalString.
From Stdlib Require PrimFloat FloatOps SpecFloat Uint63.
From Stdlib Require DecimalZ DecimalPos.
Import ListNotations.

Local Open Scope string_scope.
Local Open Scope Z_scope.

(** ** Python-level notions *)

(** The exception classes the program can meet.  [ConnectionError] stands
    for [requests.exceptions.ConnectionError] and its subclasses,
    [JSONDecodeError] for what [Response.json()] raises on a body that is
    not JSON, [RequestException] for every other error of [requests]
    (invalid URL, too many redirects, broken transfer encoding, ...),
    [KeyboardInterrupt] for the interrupt delivered by Ctrl+C, and
    [ValueError], [OverflowError] and [OSError] for the ways [time.sleep]
    refuses a length. *)
Inductive exn : Type :=
| ConnectionError
| JSONDecodeError
| RequestException
| KeyboardInterrupt
| ValueError
| OverflowError
| OSError.

Definition exn_eqb (a b : exn) : bool :=
  match a, b with
  | ConnectionError, ConnectionError
  | JSONDecodeError, JSONDecodeError
  | RequestException, RequestException
  | KeyboardInterrupt, KeyboardInterrupt
  | ValueError, ValueError
  | OverflowError, OverflowError
  | OSError, OSError => true
  | _, _ => false
  end.

(** Outcome of a statement: it completes with a value or raises. *)
Inductive result (A : Type) : Type :=
| Ok (a : A)
| Raise (e : exn).
Arguments Ok {A} a.
Arguments Raise {A} e.

(** Python floats.  Most claims about the signal generator are about which
    operations are applied to which operands, so the carrier and the
    operations are an interface: IEEE arithmetic, [math.sin], the built-in
    [round], [int], the text of a float in an f-string, and the check
    [time.sleep] makes on its argument before it sleeps.  Two instances
    follow the program: the terms of the interface, and binary64 itself.
    Division is total here: the one divisor that is not a literal is
    [320 + gauss(0, 5)], and [random.gauss] stays within nine standard
    deviations of its mean, so Python's [ZeroDivisionError] cannot occur. *)
Class PyFloat (float pyint : Type) : Type := {
  fconst : Q -> float;                 (* a numeric literal *)
  fpi    : float;                      (* math.pi *)
  fadd   : float -> float -> float;
  fmul   : float -> float -> float;
  fdiv   : float -> float -> float;
  fsin   : float -> float;             (* math.sin *)
  fround : float -> Z -> float;        (* round(x, ndigits) *)
  fint   : float -> pyint;             (* int(x) *)
  fstr   : float -> string;            (* f"{x}" *)
  fsleep : float -> option exn;        (* what time.sleep(x) raises for x *)
  fsleep_pause : fsleep (fconst 0.1) = None   (* time.sleep(0.1) sleeps *)
}.

(** Decimal text of an integer, and the format spec [{n:0wd}]: the zeros
    that fill the width go between the sign and the digits. *)
Definition str_of_Z (n : Z) : string := NilZero.string_of_int (Z.to_int n).

Fixpoint str_repeat (s : string) (n : nat) : string :=
  match n with
  | O => ""
  | S k => s ++ str_repeat s k
  end.

Definition format_0d (width : nat) (n : Z) : string :=
  if n <? 0
  then let digits := str_of_Z (- n) in
       "-" ++ str_repeat "0" (width - 1 - String.length digits) ++ digits
  else let digits := str_of_Z n in
       str_repeat "0" (width - String.length digits) ++ digits.

Section Simulator.

Context {float pyint : Type} {FL : PyFloat float pyint}.

(** ** Data model *)

(** An instance of [class SensorSimulator]. *)
Record SensorSimulator : Type := mkSensor {
  name : string;
  location : string;
  plant_id : string;
  disease_status : string;
  time_offset : float;
  registered : bool;
  gas_resistance_base : float
}.

Definition set_registered (b : bool) (s : SensorSimulator) : SensorSimulator :=
  mkSensor (name s) (location s) (plant_id s) (disease_status s)
           (time_offset s) b (gas_resistance_base s).

(** The dict returned by [generate_reading]. *)
Record Reading : Type := mkReading {
  r_name : string;
  r_plant_id : string;
  r_disease_status : string;
  r_timestamp : pyint;
  r_temperature : float;
  r_humidity : float;
  r_pressure : float;
  r_gasResistance : float;
  r_mq2_rs : float;
  r_mq2_ratio : float;
  r_mq2_r0 : float;
  r_mq2_delta : float;
  r_mq2_variance : float;
  r_mq2_baseline : float
}.

(** The [json=] argument of [requests.post]. *)
Inductive payload : Type :=
| RegisterBody (nm loc : string)
| ReadingBody (r : Reading).

(** What the program sees of a [requests.Response]: the status code and
    the text of the decoded body, [None] when the body is not JSON. *)
Record response : Type := mkResponse {
  status_code : Z;
  json_body : option string
}.

Inductive post_result : Type :=
| Responds (r : response)
| PostRaises (e : exn).

(** ** The world the program runs in *)

(** Every source of input is an oracle indexed by the number of earlier
    uses: the clock, the process-wide random source (shared by
    [random.uniform] and [random.gauss]), the HTTP endpoint and the
    sleeps that start, which report whether the interrupt arrived while
    sleeping. *)
Record Env : Type := mkEnv {
  time_time : nat -> float;
  random_uniform : nat -> float -> float -> float;
  random_gauss : nat -> float -> float -> float;
  requests_post : nat -> string -> payload -> post_result;
  sleep_interrupted : nat -> float -> bool
}.

(** The trace: entries into the methods (ghost events), requests with
    their outcome, console lines, stores to [self.registered], sleeps. *)
Inductive event : Type :=
| Call (method who : string)
| Post (url : string) (body : payload) (res : post_result)
| Print (text : string)
| Assign (who : string) (value : bool)
| Sleep (seconds : float).

Record World : Type := mkWorld {
  BASE_URL : string;
  clock : nat;
  rng : nat;
  posts : nat;
  sleeps : nat;
  log : list event
}.

Definition initial_world : World :=
  mkWorld "http://localhost:5000" 0 0 0 0 [].

Definition with_log (w : World) (e : event) : World :=
  mkWorld (BASE_URL w) (clock w) (rng w) (posts w) (sleeps w) (log w ++ [e]).

(** ** A state and exception monad *)

Definition M (St A : Type) : Type := St -> result A * St.

Definition ret {St A} (a : A) : M St A := fun s => (Ok a, s).

Definition bind {St A B} (m : M St A) (k : A -> M St B) : M St B :=
  fun s => match m s with
           | (Ok a, s') => k a s'
           | (Raise e, s') => (Raise e, s')
           end.

Definition raise {St A} (e : exn) : M St A := fun s => (Raise e, s).

(** [try: body except cls: handler] *)
Definition try_except {St A} (body : M St A) (cls : exn) (handler : M St A)
  : M St A :=
  fun s => match body s with
           | (Ok a, s') => (Ok a, s')
           | (Raise e, s') =>
               if exn_eqb e cls then handler s' else (Raise e, s')
           end.

Notation "x <- m ;; k" := (bind m (fun x => k))
  (at level 61, m at next level, right associativity).
Notation "m ;; k" := (bind m (fun _ => k))
  (at level 61, right associativity).

Variable env : Env.

(** *** Primitive statements *)

Definition Obj : Type := (SensorSimulator * World)%type.

Definition attr {A} (field : SensorSimulator -> A) : M Obj A :=
  fun s => (Ok (field (fst s)), s).

Definition global_BASE_URL : M Obj string :=
  fun s => (Ok (BASE_URL (snd s)), s).

Definition emit (e : event) : M World unit :=
  fun w => (Ok tt, with_log w e).

Definition lift {A} (m : M World A) : M Obj A :=
  fun s => let '(r, w') := m (snd s) in (r, (fst s, w')).

Definition print (text : string) : M World unit := emit (Print text).

Definition call (method : string) : M Obj unit :=
  fun s => (Ok tt, (fst s, with_log (snd s) (Call method (name (fst s))))).

(** [self.registered = b] *)
Definition assign_registered (b : bool) : M Obj unit :=
  fun s => (Ok tt, (set_registered b (fst s),
                    with_log (snd s) (Assign (name (fst s)) b))).

(** [requests.post(url, json=body)] *)
Definition post (url : string) (body : payload) : M World response :=
  fun w =>
    let res := requests_post env (posts w) url body in
    let w' := mkWorld (BASE_URL w) (clock w) (rng w) (S (posts w)) (sleeps w)
                      (log w ++ [Post url body res]) in
    match res with
    | Responds r => (Ok r, w')
    | PostRaises e => (Raise e, w')
    end.

(** [response.json()] *)
Definition json {St} (r : response) : M St string :=
  match json_body r with
  | Some text => ret text
  | None => raise JSONDecodeError
  end.

(** [time.time()] *)
Definition now : M World float :=
  fun w => (Ok (time_time env (clock w)),
            mkWorld (BASE_URL w) (S (clock w)) (rng w) (posts w) (sleeps w)
                    (log w)).

(** [random.gauss(mu, sigma)] and [random.uniform(a, b)] *)
Definition gauss (mu sigma : float) : M World float :=
  fun w => (Ok (random_gauss env (rng w) mu sigma),
            mkWorld (BASE_URL w) (clock w) (S (rng w)) (posts w) (sleeps w)
                    (log w)).

Definition uniform (a b : float) : M World float :=
  fun w => (Ok (random_uniform env (rng w) a b),
            mkWorld (BASE_URL w) (clock w) (S (rng w)) (posts w) (sleeps w)
                    (log w)).

(** [time.sleep(seconds)]: a length that is refused ([ValueError] for a
    negative number or a NaN, [OverflowError] for one that does not fit
    the interpreter's clock, [OSError] for one the operating system turns
    down) raises before any time passes; a sleep that starts either runs
    its time or is cut short by the interrupt. *)
Definition sleep (seconds : float) : M World unit :=
  fun w =>
    match fsleep seconds with
    | Some e =>
        (Raise e,
         mkWorld (BASE_URL w) (clock w) (rng w) (posts w) (sleeps w)
                 (log w ++ [Sleep seconds]))
    | None =>
        let w' := mkWorld (BASE_URL w) (clock w) (rng w) (posts w)
                          (S (sleeps w)) (log w ++ [Sleep seconds]) in
        if sleep_interrupted env (sleeps w) seconds
        then (Raise KeyboardInterrupt, w')
        else (Ok tt, w')
    end.

(** ** The module's constants *)

Definition BASELINES_temperature : float := fconst 20.
Definition BASELINES_humidity : float := fconst 35.
Definition BASELINES_pressure : float := fconst 101.
Definition BASELINES_gasResistance : float := fconst 150.
Definition BASELINES_mq2_r0 : float := fconst 320.

(** ** [class SensorSimulator] *)

(** [__init__] *)
Definition SensorSimulator_init (nm loc pid disease : string)
  : M World SensorSimulator :=
  offset <- uniform (fconst 0) (fmul (fconst 2) fpi) ;;
  ret (mkSensor nm loc pid disease offset false
         (if String.eqb disease "healthy" then fconst 150 else fconst 50)).

Definition register : M Obj unit :=
  call "register" ;;
  try_except
    (base <- global_BASE_URL ;;
     nm <- attr name ;;
     loc <- attr location ;;
     response <- lift (post (base ++ "/register") (RegisterBody nm loc)) ;;
     if status_code response =? 200 then
       nm <- attr name ;;
       lift (print ("[" ++ nm ++ "] Registered successfully")) ;;
       assign_registered true
     else
       nm <- attr name ;;
       text <- json response ;;
       lift (print ("[" ++ nm ++ "] Registration failed: " ++ text)))
    ConnectionError
    (nm <- attr name ;;
     lift (print ("[" ++ nm ++ "] Connection failed - is the server running?"))).

Definition generate_reading : M Obj Reading :=
  call "generate_reading" ;;
  clk <- lift now ;;
  offset <- attr time_offset ;;
  let t := fadd clk offset in
  g <- lift (gauss (fconst 0) (fconst 0.3)) ;;
  let temp_variation := fadd (fmul (fconst 2) (fsin (fdiv t (fconst 60)))) g in
  let temperature := fadd BASELINES_temperature temp_variation in
  g <- lift (gauss (fconst 0) (fconst 0.5)) ;;
  let humidity_variation :=
    fadd (fmul (fconst (-1.5)) (fsin (fdiv t (fconst 60)))) g in
  let humidity := fadd BASELINES_humidity humidity_variation in
  g <- lift (gauss (fconst 0) (fconst 0.05)) ;;
  let pressure_variation :=
    fadd (fmul (fconst 0.5) (fsin (fdiv t (fconst 300)))) g in
  let pressure := fadd BASELINES_pressure pressure_variation in
  base <- attr gas_resistance_base ;;
  gas_variation <- lift (gauss (fconst 0) (fmul base (fconst 0.1))) ;;
  base <- attr gas_resistance_base ;;
  let gas_resistance := fadd base gas_variation in
  g <- lift (gauss (fconst 0) (fconst 5)) ;;
  let mq2_r0 := fadd BASELINES_mq2_r0 g in
  g <- lift (gauss (fconst 0) (fconst 0.2)) ;;
  let mq2_rs := fmul mq2_r0 (fadd (fconst 3) g) in
  let mq2_ratio := fdiv mq2_rs mq2_r0 in
  mq2_delta <- lift (gauss (fconst 0.15) (fconst 0.05)) ;;
  mq2_variance <- lift (gauss (fconst 3) (fconst 0.5)) ;;
  mq2_baseline <- lift (gauss (fconst 1.35) (fconst 0.1)) ;;
  nm <- attr name ;;
  pid <- attr plant_id ;;
  disease <- attr disease_status ;;
  clk <- lift now ;;
  ret (mkReading nm pid disease
         (fint (fmul clk (fconst 1000000)))
         (fround temperature 2)
         (fround humidity 2)
         (fround pressure 3)
         (fround gas_resistance 2)
         (fround mq2_rs 2)
         (fround mq2_ratio 3)
         (fround mq2_r0 1)
         (fround mq2_delta 4)
         (fround mq2_variance 5)
         (fround mq2_baseline 4)).

(** The line printed after an accepted update. *)
Definition sent_line (nm : string) (reading : Reading) : string :=
  "[" ++ nm ++ "] Sent: temp=" ++ fstr (r_temperature reading) ++ "°C, "
  ++ "humidity=" ++ fstr (r_humidity reading) ++ "%, gas="
  ++ fstr (r_gasResistance reading) ++ "kΩ".

(** The [try] statement of [send_reading]. *)
Definition send_reading_try (reading : Reading) : M Obj unit :=
  try_except
    (base <- global_BASE_URL ;;
     response <- lift (post (base ++ "/update") (ReadingBody reading)) ;;
     if status_code response =? 200 then
       nm <- attr name ;;
       lift (print (sent_line nm reading))
     else
       nm <- attr name ;;
       lift (print ("[" ++ nm ++ "] Update failed, re-registering...")) ;;
       assign_registered false ;;
       register ;;
       base <- global_BASE_URL ;;
       response <- lift (post (base ++ "/update") (ReadingBody reading)) ;;
       if status_code response =? 200 then
         nm <- attr name ;;
         lift (print (sent_line nm reading))
       else
         nm <- attr name ;;
         text <- json response ;;
         lift (print ("[" ++ nm ++ "] Update still failed: " ++ text)))
    ConnectionError
    (nm <- attr name ;;
     lift (print ("[" ++ nm ++ "] Connection failed"))).

Definition send_reading : M Obj unit :=
  call "send_reading" ;;
  reg <- attr registered ;;
  (if negb reg then register else ret tt) ;;
  reading <- generate_reading ;;
  send_reading_try reading.

(** ** [main] *)

(** The parsed command line ([--url], [--interval], [--sensors]). *)
Record Args : Type := mkArgs {
  arg_url : string;
  arg_interval : float;
  arg_sensors : Z
}.

(** How a run of the process stands: [main] returned and the interpreter
    exits with the given code, an exception left [main] uncaught, or the
    main loop is still turning after the ticks that were looked at. *)
Inductive status : Type :=
| Exited (code : Z)
| Uncaught (e : exn)
| Running.

Definition newline : string := String (ascii_of_nat 10) "".

(** [BASE_URL = args.url] *)
Definition assign_BASE_URL (url : string) : M World unit :=
  fun w => (Ok tt, mkWorld url (clock w) (rng w) (posts w) (sleeps w) (log w)).

(** [for i in range(args.sensors): ...], [count] iterations left. *)
Fixpoint create_sensors (count : nat) (i : Z) (sensors : list SensorSimulator)
  : M World (list SensorSimulator) :=
  match count with
  | O => ret sensors
  | S count' =>
      let sensor_num := i + 1 in
      let disease := if negb (i mod 3 =? 2) then "healthy" else "infected" in
      sensor <- SensorSimulator_init
                  ("sensor_" ++ format_0d 2 sensor_num)
                  ("greenhouse_zone_" ++ str_of_Z sensor_num)
                  ("plant_" ++ format_0d 3 sensor_num)
                  disease ;;
      create_sensors count' (i + 1) (sensors ++ [sensor])
  end.

(** [for sensor in sensors: body], the objects updated in place. *)
Fixpoint for_each (body : M Obj unit) (sensors : list SensorSimulator)
  (w : World) : result unit * (list SensorSimulator * World) :=
  match sensors with
  | [] => (Ok tt, ([], w))
  | sensor :: rest =>
      match body (sensor, w) with
      | (Ok _, (sensor', w')) =>
          let '(r, (rest', w'')) := for_each body rest w' in
          (r, (sensor' :: rest', w''))
      | (Raise e, (sensor', w')) => (Raise e, (sensor' :: rest, w'))
      end
  end.

(** Everything up to the first rule of dashes. *)
Definition main_setup (args : Args) : M World (list SensorSimulator) :=
  assign_BASE_URL (arg_url args) ;;
  sensors <- create_sensors (Z.to_nat (arg_sensors args)) 0 [] ;;
  print ("Starting simulation with "
         ++ str_of_Z (Z.of_nat (List.length sensors)) ++ " sensors") ;;
  base <- (fun w => (Ok (BASE_URL w), w)) ;;
  print ("Server: " ++ base) ;;
  print ("Update interval: " ++ fstr (arg_interval args) ++ "s") ;;
  print (str_repeat "-" 50) ;;
  ret sensors.

(** The body of the registration pass. *)
Definition register_and_pause : M Obj unit :=
  register ;;
  lift (sleep (fconst 0.1)).

Definition main_announce : M World unit :=
  print (str_repeat "-" 50) ;;
  print "Sending readings... (Ctrl+C to stop)" ;;
  print (str_repeat "-" 50).

(** [while True: ...], followed for [ticks] rounds: [None] when the loop
    is still turning after them, [Some e] when [e] left the loop. *)
Fixpoint main_loop (ticks : nat) (interval : float)
  (sensors : list SensorSimulator) (w : World)
  : option exn * (list SensorSimulator * World) :=
  match ticks with
  | O => (None, (sensors, w))
  | S ticks' =>
      match for_each send_reading sensors w with
      | (Raise e, st) => (Some e, st)
      | (Ok _, (sensors', w')) =>
          match sleep interval w' with
          | (Raise e, w'') => (Some e, (sensors', w''))
          | (Ok _, w'') => main_loop ticks' interval sensors' w''
          end
      end
  end.

(** Lines 125-162 of [main]: what runs before the [try]. *)
Definition main_startup (args : Args) (w0 : World)
  : result unit * (list SensorSimulator * World) :=
  match main_setup args w0 with
  | (Raise e, w) => (Raise e, ([], w))
  | (Ok sensors, w) =>
      match for_each register_and_pause sensors w with
      | (Raise e, st) => (Raise e, st)
      | (Ok _, (sensors', w')) =>
          let '(r, w'') := main_announce w' in (r, (sensors', w''))
      end
  end.

Definition main (args : Args) (ticks : nat) (w0 : World)
  : status * (list SensorSimulator * World) :=
  match main_startup args w0 with
  | (Raise e, st) => (Uncaught e, st)
  | (Ok _, (sensors, w)) =>
      match main_loop ticks (arg_interval args) sensors w with
      | (None, st) => (Running, st)
      | (Some e, (sensors', w')) =>
          if exn_eqb e KeyboardInterrupt
          then (Exited 0,
                (sensors',
                 with_log w' (Print (newline ++ "Simulation stopped"))))
          else (Uncaught e, (sensors', w'))
      end
  end.

(** [args = parser.parse_args()] (lines 125-132) either yields the
    namespace or ends the process itself: with [-h] argparse prints the
    help and exits with status 0, and a command line it cannot parse (an
    unknown option, [--interval abc], [--sensors 2.5], ...) makes it print
    the usage and exit with status 2.  What argparse prints is its own
    and is not part of the trace. *)
Inductive command_line : Type :=
| Parsed (args : Args)
| Help
| UsageError.

(** [main()] from its first line: [main] above is what follows line 132. *)
Definition main_from_command_line (cl : command_line) (ticks : nat)
  (w0 : World) : status * (list SensorSimulator * World) :=
  match cl with
  | Parsed args => main args ticks w0
  | Help => (Exited 0, ([], w0))
  | UsageError => (Exited 2, ([], w0))
  end.

(** ** Observing a run *)

(** A sequence of method calls on one node, as a caller that goes on
    after a call that raised would make them. *)
Inductive method : Type :=
| Register
| GenerateReading
| SendReading.

Definition invoke (m : method) : M Obj unit :=
  match m with
  | Register => register
  | GenerateReading => generate_reading ;; ret tt
  | SendReading => send_reading
  end.

Fixpoint run_calls (ms : list method) (s : Obj) : Obj :=
  match ms with
  | [] => s
  | m :: ms' => run_calls ms' (snd (invoke m s))
  end.

(** The submissions of readings in a trace, oldest first. *)
Fixpoint submissions (tr : list event)
  : list (string * Reading * post_result) :=
  match tr with
  | [] => []
  | Post url (ReadingBody r) res :: tr' => (url, r, res) :: submissions tr'
  | _ :: tr' => submissions tr'
  end.

(** The registration requests in a trace. *)
Fixpoint registrations (tr : list event) : list (string * post_result) :=
  match tr with
  | [] => []
  | Post url (RegisterBody _ _) res :: tr' => (url, res) :: registrations tr'
  | _ :: tr' => registrations tr'
  end.

(** How often a method was entered. *)
Fixpoint calls_of (m : string) (tr : list event) : nat :=
  match tr with
  | [] => O
  | Call m' _ :: tr' =>
      if String.eqb m m' then S (calls_of m tr') else calls_of m tr'
  | _ :: tr' => calls_of m tr'
  end.

(** The stores to [self.registered]. *)
Fixpoint assignments (tr : list event) : list bool :=
  match tr with
  | [] => []
  | Assign _ b :: tr' => b :: assignments tr'
  | _ :: tr' => assignments tr'
  end.

(** The console lines. *)
Fixpoint printed (tr : list event) : list string :=
  match tr with
  | [] => []
  | Print text :: tr' => text :: printed tr'
  | _ :: tr' => printed tr'
  end.

(** The outcome of the first submission of a trace and what follows it. *)
Definition first_submission (tr : list event) : option post_result :=
  match submissions tr with
  | [] => None
  | (_, _, res) :: _ => Some res
  end.

Fixpoint after_first_submission (tr : list event) : list event :=
  match tr with
  | [] => []
  | Post _ (ReadingBody _) _ :: tr' => tr'
  | _ :: tr' => after_first_submission tr'
  end.

Definition accepted (res : post_result) : bool :=
  match res with
  | Responds r => status_code r =? 200
  | PostRaises _ => false
  end.

End Simulator.

Arguments SensorSimulator : clear implicits.
Arguments Reading : clear implicits.
Arguments Env : clear implicits.
Arguments World : clear implicits.
Arguments event : clear implicits.
Arguments payload : clear implicits.
Arguments Args : clear implicits.
Arguments command_line : clear implicits.

(** ** A concrete instance: floats as the expressions that compute them *)

(** Running the program needs some carrier for the floats.  The term
    algebra of the interface keeps every operation visible, so a run shows
    the formula behind each field. *)
Inductive sym : Type :=
| SConst (q : Q)
| SPi
| SAdd (a b : sym)
| SMul (a b : sym)
| SDiv (a b : sym)
| SSin (a : sym)
| SRound (a : sym) (ndigits : Z)
| STime (k : nat)
| SUniform (k : nat) (a b : sym)
| SGauss (k : nat) (mu sigma : sym).

Inductive symint : Type :=
| SInt (a : sym).

Fixpoint sym_str (x : sym) : string :=
  match x with
  | SConst q =>
      if Zpos (Qden q) =? 1
      then str_of_Z (Qnum q) ++ ".0"
      else str_of_Z (Qnum q) ++ "/" ++ str_of_Z (Zpos (Qden q))
  | SPi => "pi"
  | SAdd a b => "(" ++ sym_str a ++ " + " ++ sym_str b ++ ")"
  | SMul a b => "(" ++ sym_str a ++ " * " ++ sym_str b ++ ")"
  | SDiv a b => "(" ++ sym_str a ++ " / " ++ sym_str b ++ ")"
  | SSin a => "sin(" ++ sym_str a ++ ")"
  | SRound a n => "round(" ++ sym_str a ++ ", " ++ str_of_Z n ++ ")"
  | STime k => "time#" ++ str_of_Z (Z.of_nat k)
  | SUniform k a b =>
      "uniform#" ++ str_of_Z (Z.of_nat k)
      ++ "(" ++ sym_str a ++ ", " ++ sym_str b ++ ")"
  | SGauss k mu sigma =>
      "gauss#" ++ str_of_Z (Z.of_nat k)
      ++ "(" ++ sym_str mu ++ ", " ++ sym_str sigma ++ ")"
  end.

(** [time.sleep] on a term: a literal is refused when it is negative or
    has more nanoseconds than 63 bits hold; every other term stands for a
    length that is accepted. *)
Definition sym_sleep (x : sym) : option exn :=
  match x with
  | SConst q =>
      if Qnum q <? 0 then Some ValueError
      else if Qle_bool (inject_Z (2 ^ 63)) (q * inject_Z (10 ^ 9))
           then Some OverflowError
           else None
  | _ => None
  end.

#[export] Instance SymFloat : PyFloat sym symint := {
  fconst := SConst;
  fpi := SPi;
  fadd := SAdd;
  fmul := SMul;
  fdiv := SDiv;
  fsin := SSin;
  fround := SRound;
  fint := SInt;
  fstr := sym_str;
  fsleep := sym_sleep;
  fsleep_pause := eq_refl
}.

(** ** A second instance: binary64 *)

(** Python's floats are IEEE 754 doubles, and so are Rocq's primitive
    floats: [+], [*] and [/] are the same correctly rounded operations.
    What is left of the interface is built on the exact value of a
    double. *)

(** The double nearest to a rational, ties to even. *)
Definition ieee_of_Q (q : Q) : PrimFloat.float :=
  let nearest (negative : bool) (num : positive) :=
    let '(m, e, l) :=
      SpecFloat.SFdiv_core_binary FloatOps.prec FloatOps.emax
        (Zpos num) 0 (Zpos (Qden q)) 0 in
    SpecFloat.binary_round_aux FloatOps.prec FloatOps.emax negative m e l in
  FloatOps.SF2Prim
    match Qnum q with
    | Z0 => SpecFloat.S754_zero false
    | Zpos num => nearest false num
    | Zneg num => nearest true num
    end.

Definition ieee_of_int (z : Z) : PrimFloat.float := ieee_of_Q (inject_Z z).

(** The rational a finite double stands for. *)
Definition ieee_exact (x : PrimFloat.float) : Q :=
  match FloatOps.Prim2SF x with
  | SpecFloat.S754_finite s m e =>
      let sm := if s then Zneg m else Zpos m in
      if 0 <=? e then inject_Z (sm * 2 ^ e) else sm # Z.to_pos (2 ^ (- e))
  | _ => 0%Q
  end.

(** The nearest integer, ties to the even one. *)
Definition half_even (q : Q) : Z :=
  let n := Qnum q in
  let d := Zpos (Qden q) in
  match 2 * (n mod d) ?= d with
  | Lt => n / d
  | Gt => n / d + 1
  | Eq => if Z.even (n / d) then n / d else n / d + 1
  end.

(** [round(x, ndigits)] for [ndigits >= 0]: CPython rounds the exact
    value of [x] to [ndigits] decimals, ties to even, and returns the
    double nearest to that decimal; a result of zero keeps the sign of
    [x], and infinities and NaN are returned as they are. *)
Definition ieee_round (x : PrimFloat.float) (ndigits : Z) : PrimFloat.float :=
  match FloatOps.Prim2SF x with
  | SpecFloat.S754_finite negative _ _ =>
      match half_even (ieee_exact x * inject_Z (10 ^ ndigits)) with
      | Z0 => FloatOps.SF2Prim (SpecFloat.S754_zero negative)
      | m => ieee_of_Q (m # Z.to_pos (10 ^ ndigits))
      end
  | _ => x
  end.

(** A literal: the double nearest to the decimal that is written. *)
Definition ieee_const (q : Q) : PrimFloat.float := ieee_of_Q q.

(** [int(x)]: truncation towards zero. *)
Definition ieee_int (x : PrimFloat.float) : Z :=
  Z.quot (Qnum (ieee_exact x)) (Zpos (Qden (ieee_exact x))).

(** [time.sleep(x)] (CPython 3.11 on x86-64).  A NaN is a [ValueError].
    The length is then turned into nanoseconds, [x * 1e9] as a double: a
    product beyond [2^63] in size is an [OverflowError]; a product of
    [2^63] itself passes that check and wraps to a negative count, which
    is refused like every negative length with a [ValueError].  What is
    left goes to the operating system, which turns down a sleep that
    would end after the last instant of its clock with [OSError]:
    [horizon] is the number of whole seconds, at least one, from which on
    a length is too long for it. *)
Definition ieee_sleep (horizon : positive) (x : PrimFloat.float)
  : option exn :=
  match FloatOps.Prim2SF x with
  | SpecFloat.S754_nan => Some ValueError
  | SpecFloat.S754_infinity _ => Some OverflowError
  | SpecFloat.S754_zero _ => None
  | SpecFloat.S754_finite negative _ _ =>
      let ns := PrimFloat.mul x (ieee_of_int (10 ^ 9)) in
      match FloatOps.Prim2SF ns with
      | SpecFloat.S754_finite _ _ _ =>
          match (if negative then - ieee_exact ns else ieee_exact ns)%Q
                ?= inject_Z (2 ^ 63) with
          | Gt => Some OverflowError
          | Eq => Some ValueError
          | Lt =>
              if negative then Some ValueError
              else if ieee_int x <? Zpos horizon
                   then None
                   else Some OSError
          end%Q
      | _ => Some OverflowError
      end
  end.

(** [math.sin], the text of a float and the horizon of the operating
    system are not part of IEEE arithmetic; they stay parameters of the
    instance. *)
Definition ieee_float (sine : PrimFloat.float -> PrimFloat.float)
  (text : PrimFloat.float -> string) (horizon : positive)
  : PyFloat PrimFloat.float Z := {|
  fconst := ieee_const;
  fpi := ieee_const (884279719003555 # 281474976710656);
  fadd := PrimFloat.add;
  fmul := PrimFloat.mul;
  fdiv := PrimFloat.div;
  fsin := sine;
  fround := ieee_round;
  fint := ieee_int;
  fstr := text;
  fsleep := ieee_sleep horizon;
  fsleep_pause := eq_refl
|}.

(** An endpoint that answers the [k]-th request with the [k]-th entry of
    a script and accepts every later one, and sleeps of which the listed
    ones are interrupted. *)
Definition accept : post_result :=
  Responds (mkResponse 200 (Some "{'status': 'ok'}")).

Definition reject (code : Z) (body : option string) : post_result :=
  Responds (mkResponse code body).

Definition scripted (script : list post_result) (interrupts : list bool)
  : Env sym symint :=
  mkEnv STime SUniform SGauss
        (fun k _ _ => nth k script accept)
        (fun k _ => nth k interrupts false).

Definition default_args (n : Z) : Args sym :=
  mkArgs "http://localhost:5000" (SConst 2) n.

(** A node as [main] builds the third one, already registered or not. *)
Definition sensor_03 (reg : bool) : SensorSimulator sym :=
  mkSensor "sensor_03" "greenhouse_zone_3" "plant_003" "infected"
           (SUniform 2 (SConst 0) (SMul (SConst 2) SPi)) reg (SConst 50).

Definition sensor_01 (reg : bool) : SensorSimulator sym :=
  mkSensor "sensor_01" "greenhouse_zone_1" "plant_001" "healthy"
           (SUniform 0 (SConst 0) (SMul (SConst 2) SPi)) reg (SConst 150).



Definition never_interrupted {float pyint : Type} (env : Env float pyint)
  : Prop :=
  forall k seconds, sleep_interrupted env k seconds = false.

(** *** Scenarios *)

(** A reading for which the draw behind [mq2_r0] is 0.0499 and the draw
    behind [mq2_rs] is 0.40049, two standard deviations above its mean;
    every other draw lands on its mean.  The fields of the secondary gas
    sensor use neither the sine nor the text of a float, so any function
    can stand for them in this run. *)
Definition two_sigma_float : PyFloat PrimFloat.float Z :=
  ieee_float (fun _ => PrimFloat.zero) (fun _ => "") 86400.

Definition two_sigma_draws : Env PrimFloat.float Z :=
  mkEnv (fun k => ieee_const (1700000000 + inject_Z (Z.of_nat k)))
        (fun _ a _ => a)
        (fun k mu _ =>
           match k with
           | 4%nat => ieee_const 0.0499
           | 5%nat => ieee_const 0.40049
           | _ => mu
           end)
        (fun _ _ _ => accept)
        (fun _ _ => false).

Definition healthy_node : SensorSimulator PrimFloat.float :=
  mkSensor "sensor_01" "greenhouse_zone_1" "plant_001" "healthy"
           (ieee_const 1) true (ieee_const 150).

(** The endpoint is down for good. *)
Definition server_down : Env sym symint :=
  mkEnv STime SUniform SGauss
        (fun _ _ _ => PostRaises ConnectionError)
        (fun _ _ => false).

(** The endpoint answers the first submission with a 500 and accepts
    the registration and the submission that follow. *)
Definition rejected_once : Env sym symint :=
  scripted [reject 500 (Some "{'error': 'unknown sensor'}"); accept; accept] [].

(** The endpoint cannot be reached for the first request. *)
Definition unreachable_once : Env sym symint :=
  scripted [PostRaises ConnectionError] [].

(** Ctrl+C arrives during the first request. *)
Definition interrupted_request : Env sym symint :=
  scripted [PostRaises KeyboardInterrupt] [].


(** The endpoint answers the first request with a 500 whose body is an
    HTML error page rather than JSON. *)
Definition html_error_page : Env sym symint :=
  scripted [reject 500 None] [].

(** The endpoint rejects both submissions of a reading, the second time
    with a body that is not JSON. *)
Definition rejected_twice_html : Env sym symint :=
  scripted [reject 500 (Some "{'error': 'unknown sensor'}"); accept;
            reject 502 None] [].


(** What [register] does, read off the outcome of its one request: the
    result of the call, the node afterwards and the events that follow
    the request in the trace. *)
Definition register_outcome {float : Type} (s : SensorSimulator float)
  (res : post_result)
  : result unit * SensorSimulator float * list string * list bool :=
  match res with
  | Responds rsp =>
      if status_code rsp =? 200
      then (Ok tt, set_registered true s,
            ["[" ++ name s ++ "] Registered successfully"], [true])
      else match json_body rsp with
           | Some text =>
               (Ok tt, s,
                ["[" ++ name s ++ "] Registration failed: " ++ text], [])
           | None => (Raise JSONDecodeError, s, [], [])
           end
  | PostRaises e =>
      if exn_eqb e ConnectionError
      then (Ok tt, s,
            ["[" ++ name s ++ "] Connection failed - is the server running?"],
            [])
      else (Raise e, s, [], [])
  end.

(** Two states of a node that agree on everything but [registered]. *)
Definition same_fixed_fields {float : Type} (a b : SensorSimulator float)
  : Prop :=
  name a = name b /\ location a = location b /\ plant_id a = plant_id b /\
  disease_status a = disease_status b /\ time_offset a = time_offset b /\
  gas_resistance_base a = gas_resistance_base b.

(** A statement that leaves those fields of the node as they are. *)
Definition keeps_fixed_fields {float pyint A : Type}
  (m : M (SensorSimulator float * World float pyint) A) : Prop :=
  forall s w, same_fixed_fields s (fst (snd (m (s, w)))).

(** The classification the node at position [i] is meant to get. *)
Definition every_third_infected (i : Z) : string :=
  if i mod 3 =? 2 then "infected" else "healthy".

(** ** Reading the run of [main] *)

(** The number a decimal numeral stands for, as [int(text)] reads it;
    it tells the formatted numbers of the node names apart. *)
Definition parse_decimal (text : string) : option Z :=
  option_map Z.of_int (NilZero.int_of_string text).

(** The node [main] builds for index [i] of its loop when the random
    source stands at draw number [draw]. *)
Definition built_node {float pyint : Type} {FL : PyFloat float pyint}
  (env : Env float pyint) (i : Z) (draw : nat) : SensorSimulator float :=
  mkSensor ("sensor_" ++ format_0d 2 (i + 1))
           ("greenhouse_zone_" ++ str_of_Z (i + 1))
           ("plant_" ++ format_0d 3 (i + 1))
           (every_third_infected i)
           (random_uniform env draw (fconst 0) (fmul (fconst 2) fpi))
           false
           (if i mod 3 =? 2 then fconst 50 else fconst 150).

(** An event of node [s] under the base address [base]: requests go to
    the path that fits their body and carry the node's own identity. *)
Definition speaks_for {float pyint : Type} (base : string)
  (s : SensorSimulator float) (e : event float pyint) : Prop :=
  match e with
  | Post url (RegisterBody nm loc) _ =>
      url = base ++ "/register" /\ nm = name s /\ loc = location s
  | Post url (ReadingBody r) _ =>
      url = base ++ "/update" /\ r_name r = name s /\
      r_plant_id r = plant_id s /\ r_disease_status r = disease_status s
  | Call _ who => who = name s
  | Assign who _ => who = name s
  | Print _ => True
  | Sleep _ => True
  end.

(** The outcome of the last registration request of a trace. *)
Definition last_registration {float pyint : Type}
  (tr : list (event float pyint)) : option post_result :=
  match rev (registrations tr) with
  | [] => None
  | (_, res) :: _ => Some res
  end.

(** An event of a run over the nodes [nodes]: what is printed and the
    sleeps are the program's own, every other event is some node's. *)
Definition addressed {float pyint : Type} (base : string)
  (nodes : list (SensorSimulator float)) (e : event float pyint) : Prop :=
  match e with
  | Print _ => True
  | Sleep _ => True
  | _ => Exists (fun s => speaks_for base s e) nodes
  end.

(** A method that keeps the node's identity and the base address and
    whose events are the node's. *)
Definition in_character {float pyint A : Type}
  (body : M (SensorSimulator float * World float pyint) A) : Prop :=
  forall s w,
    same_fixed_fields s (fst (snd (body (s, w)))) /\
    BASE_URL (snd (snd (body (s, w)))) = BASE_URL w /\
    exists tr, log (snd (snd (body (s, w)))) = (log w ++ tr)%list /\
               Forall (speaks_for (BASE_URL w) s) tr.

(** An endpoint that answers every update with status 200. *)
Definition updates_accepted {float pyint : Type} (env : Env float pyint)
  : Prop :=
  forall k url reading,
    accepted (requests_post env k url (ReadingBody reading)) = true.

(** The names on the readings submitted in a trace, oldest first. *)
Definition submitted_by {float pyint : Type} (tr : list (event float pyint))
  : list string :=
  map (fun sub => r_name (snd (fst sub))) (submissions tr).

(** ** Reading a run for its errors and its order *)

(** The events of a trace before its first submission. *)
Fixpoint before_first_submission {float pyint : Type}
  (tr : list (event float pyint)) : list (event float pyint) :=
  match tr with
  | [] => []
  | Post _ (ReadingBody _) _ :: _ => []
  | e :: tr' => e :: before_first_submission tr'
  end.



(** The line the handler of [KeyboardInterrupt] prints. *)
Definition stopped_line : string := newline ++ "Simulation stopped".





(** * Properties *)

Section Properties.

Context {float pyint : Type} {FL : PyFloat float pyint}.
Variable env : Env float pyint.

Local Open Scope list_scope.

Abbreviation Node := (SensorSimulator float).
Abbreviation world := (World float pyint).

(** ** Traces *)

Lemma submissions_app (a b : list (event float pyint)) :
  submissions (a ++ b) = submissions a ++ submissions b.
Proof.
  induction a as [|e a IH]; simpl; [reflexivity|].
  destruct e as [| ? [] ? | | |]; simpl; now rewrite ?IH.
Qed.

Lemma registrations_app (a b : list (event float pyint)) :
  registrations (a ++ b) = registrations a ++ registrations b.
Proof.
  induction a as [|e a IH]; simpl; [reflexivity|].
  destruct e as [| ? [] ? | | |]; simpl; now rewrite ?IH.
Qed.


Lemma assignments_app (a b : list (event float pyint)) :
  assignments (a ++ b) = assignments a ++ assignments b.
Proof.
  induction a as [|e a IH]; simpl; [reflexivity|].
  destruct e; simpl; now rewrite ?IH.
Qed.

Lemma printed_app (a b : list (event float pyint)) :
  printed (a ++ b) = printed a ++ printed b.
Proof.
  induction a as [|e a IH]; simpl; [reflexivity|].
  destruct e; simpl; now rewrite ?IH.
Qed.

Lemma first_submission_skip (pre : list (event float pyint)) u rd res after :
  submissions pre = [] ->
  first_submission (pre ++ Post u (ReadingBody rd) res :: after) = Some res /\
  after_first_submission (pre ++ Post u (ReadingBody rd) res :: after) = after.
Proof.
  unfold first_submission. induction pre as [|e pre IH]; simpl.
  - intros _. split; reflexivity.
  - destruct e as [| ? [] ? | | |]; simpl; intros H;
      try discriminate; apply IH; exact H.
Qed.

(** ** The methods, one request at a time *)

Ltac run_program :=
  cbv beta iota zeta delta
    [register generate_reading send_reading_try invoke
     bind try_except attr call lift global_BASE_URL print emit
     assign_registered post json ret raise with_log now gauss uniform sleep
     set_registered register_outcome accepted
     BASELINES_temperature BASELINES_humidity BASELINES_pressure
     BASELINES_mq2_r0
     BASE_URL clock rng posts sleeps log
     name location plant_id disease_status time_offset registered
     gas_resistance_base status_code json_body
     r_temperature r_humidity r_gasResistance r_mq2_ratio r_mq2_rs r_mq2_r0
     fst snd exn_eqb negb].

Ltac flatten_log :=
  repeat match goal with
         | |- context [(?a ++ ?b) ++ ?c] => rewrite <- (app_assoc a b c)
         end;
  cbn [app].

Lemma register_run (s : Node) (w : world) :
  let url := (BASE_URL w ++ "/register")%string in
  let body := RegisterBody (name s) (location s) in
  let res := requests_post env (posts w) url body in
  let '(r, s', lines, stores) := register_outcome s res in
  register env (s, w) =
  (r, (s', mkWorld (BASE_URL w) (clock w) (rng w) (S (posts w)) (sleeps w)
             (log w ++ Call "register" (name s) :: Post url body res
                    :: map (@Print float pyint) lines
                    ++ map (Assign (name s)) stores))).
Proof.
  destruct s as [nm loc pid dis off reg base], w as [url clk rg ps sl lg].
  run_program.
  destruct (requests_post env ps (url ++ "/register")%string
              (RegisterBody nm loc)) as [[code body]|e].
  - destruct (code =? 200).
    + flatten_log. reflexivity.
    + destruct body; flatten_log; reflexivity.
  - destruct e; flatten_log; reflexivity.
Qed.

Lemma generate_reading_run (s : Node) (w : world) :
  exists reading,
    generate_reading env (s, w) =
    (Ok reading,
     (s, mkWorld (BASE_URL w) (S (S (clock w))) (9 + rng w) (posts w)
           (sleeps w) (log w ++ [Call "generate_reading" (name s)]))).
Proof.
  destruct s as [nm loc pid dis off reg base], w as [url clk rg ps sl lg].
  eexists. run_program. reflexivity.
Qed.

(** ** The signal generator *)

(** C6: a reading generated when the clock shows [now], for a node with
    phase offset [p], has with [t = now + p] the temperature
    [round(20.0 + (2*sin(t/60) + g1), 2)] and the humidity
    [round(35.0 + (-1.5*sin(t/60) + g2), 2)], where [g1] and [g2] are the
    first two draws of the call, [gauss(0, 0.3)] and [gauss(0, 0.5)]; both
    sinusoids take the same [sin(t/60)] and their amplitudes are in the
    ratio -0.75. *)
Theorem generate_reading_temperature_humidity (s : Node) (w : world) :
  exists reading w',
    generate_reading env (s, w) = (Ok reading, (s, w')) /\
    let t := fadd (time_time env (clock w)) (time_offset s) in
    let wave := fsin (fdiv t (fconst 60)) in
    r_temperature reading =
      fround (fadd (fconst 20)
                (fadd (fmul (fconst 2) wave)
                      (random_gauss env (rng w) (fconst 0) (fconst 0.3)))) 2
    /\ r_humidity reading =
      fround (fadd (fconst 35)
                (fadd (fmul (fconst (-1.5)) wave)
                      (random_gauss env (S (rng w)) (fconst 0) (fconst 0.5)))) 2
    /\ (-1.5 / 2 == -0.75)%Q.
Proof.
  destruct s as [nm loc pid dis off reg base], w as [url clk rg ps sl lg].
  do 2 eexists. split; [run_program; reflexivity|].
  run_program. repeat split.
Qed.

(** C3, as the code has it: the ratio of the secondary gas sensor is
    taken from the raw values.  With [mq2_r0 = 320 + g5] and
    [mq2_rs = mq2_r0 * (3 + g6)], [g5] and [g6] being the fifth and sixth
    draw of the call, the reading reports [round(mq2_rs / mq2_r0, 3)] as
    the ratio, [round(mq2_rs, 2)] as [mq2_rs] and [round(mq2_r0, 1)] as
    [mq2_r0]. *)
Theorem generate_reading_mq2_ratio (s : Node) (w : world) :
  exists reading w',
    generate_reading env (s, w) = (Ok reading, (s, w')) /\
    let mq2_r0 :=
      fadd (fconst 320) (random_gauss env (4 + rng w) (fconst 0) (fconst 5)) in
    let mq2_rs :=
      fmul mq2_r0
        (fadd (fconst 3)
              (random_gauss env (5 + rng w) (fconst 0) (fconst 0.2))) in
    r_mq2_ratio reading = fround (fdiv mq2_rs mq2_r0) 3 /\
    r_mq2_rs reading = fround mq2_rs 2 /\
    r_mq2_r0 reading = fround mq2_r0 1.
Proof.
  destruct s as [nm loc pid dis off reg base], w as [url clk rg ps sl lg].
  do 2 eexists. split; [run_program; reflexivity|].
  run_program. repeat split.
Qed.

(** ** What a call may change in a node *)

Lemma same_fixed_fields_refl (a : Node) : same_fixed_fields a a.
Proof. repeat split. Qed.

Lemma same_fixed_fields_trans (a b c : Node) :
  same_fixed_fields a b -> same_fixed_fields b c -> same_fixed_fields a c.
Proof.
  unfold same_fixed_fields. intros H1 H2.
  decompose [and] H1. decompose [and] H2. repeat split; congruence.
Qed.

Lemma keeps_ret {A} (a : A) : keeps_fixed_fields (float:=float) (pyint:=pyint) (ret a).
Proof. intros s w. apply same_fixed_fields_refl. Qed.

Lemma keeps_raise {A} (e : exn) :
  keeps_fixed_fields (float:=float) (pyint:=pyint) (A:=A) (raise e).
Proof. intros s w. apply same_fixed_fields_refl. Qed.

Lemma keeps_attr {A} (f : Node -> A) :
  keeps_fixed_fields (pyint:=pyint) (attr f).
Proof. intros s w. apply same_fixed_fields_refl. Qed.

Lemma keeps_global_BASE_URL :
  keeps_fixed_fields (float:=float) (pyint:=pyint) global_BASE_URL.
Proof. intros s w. apply same_fixed_fields_refl. Qed.

Lemma keeps_call m : keeps_fixed_fields (float:=float) (pyint:=pyint) (call m).
Proof. intros s w. apply same_fixed_fields_refl. Qed.

Lemma keeps_lift {A} (m : M world A) : keeps_fixed_fields (lift m).
Proof.
  intros s w. unfold lift. simpl. destruct (m w). apply same_fixed_fields_refl.
Qed.

Lemma keeps_json (r : response) :
  keeps_fixed_fields (float:=float) (pyint:=pyint) (json r).
Proof.
  unfold json. destruct (json_body r); [apply keeps_ret | apply keeps_raise].
Qed.

Lemma keeps_assign_registered b :
  keeps_fixed_fields (float:=float) (pyint:=pyint) (assign_registered b).
Proof. intros [] w. repeat split. Qed.

Lemma keeps_bind {A B} (m : M (Node * world) A) (k : A -> M (Node * world) B) :
  keeps_fixed_fields m -> (forall a, keeps_fixed_fields (k a)) ->
  keeps_fixed_fields (bind m k).
Proof.
  intros Hm Hk s w. unfold bind. specialize (Hm s w).
  destruct (m (s, w)) as [[a|e] [s1 w1]]; simpl in *; [|assumption].
  eapply same_fixed_fields_trans; [exact Hm | apply Hk].
Qed.

Lemma keeps_try_except {A} (body handler : M (Node * world) A) cls :
  keeps_fixed_fields body -> keeps_fixed_fields handler ->
  keeps_fixed_fields (try_except body cls handler).
Proof.
  intros Hb Hh s w. unfold try_except. specialize (Hb s w).
  destruct (body (s, w)) as [[a|e] [s1 w1]]; simpl in *; [assumption|].
  destruct (exn_eqb e cls); [|assumption].
  eapply same_fixed_fields_trans; [exact Hb | apply Hh].
Qed.

Ltac keeps :=
  repeat first
    [ apply keeps_bind; [|intros ?]
    | apply keeps_try_except
    | apply keeps_ret | apply keeps_raise | apply keeps_attr
    | apply keeps_global_BASE_URL | apply keeps_call | apply keeps_lift
    | apply keeps_json | apply keeps_assign_registered
    | match goal with
      | |- keeps_fixed_fields (if ?b then _ else _) => destruct b
      end
    | assumption ].

Lemma keeps_register : keeps_fixed_fields (register env).
Proof. unfold register. keeps. Qed.

Lemma keeps_generate_reading : keeps_fixed_fields (generate_reading env).
Proof. unfold generate_reading. keeps. Qed.

Lemma keeps_send_reading : keeps_fixed_fields (send_reading env).
Proof.
  pose proof keeps_register as Hr. pose proof keeps_generate_reading as Hg.
  unfold send_reading, send_reading_try. keeps.
Qed.

Lemma keeps_invoke m : keeps_fixed_fields (invoke env m).
Proof.
  destruct m; simpl.
  - apply keeps_register.
  - apply keeps_bind; [apply keeps_generate_reading | intros; apply keeps_ret].
  - apply keeps_send_reading.
Qed.

Lemma run_calls_same_fixed_fields (ms : list method) (s : Node) (w : world) :
  same_fixed_fields s (fst (run_calls env ms (s, w))).
Proof.
  revert s w. induction ms as [|m ms IH]; intros s w; simpl.
  - apply same_fixed_fields_refl.
  - pose proof (keeps_invoke m s w) as Hm.
    destruct (invoke env m (s, w)) as [r [s1 w1]]; simpl in *.
    eapply same_fixed_fields_trans; [exact Hm | apply IH].
Qed.

(** C8: whatever sequence of [register], [generate_reading] and
    [send_reading] calls is made on a node, including calls that raise,
    the node keeps its name, location, plant id, disease status, phase
    offset and gas resistance baseline; [registered] is the only field
    that can differ afterwards. *)
Theorem only_registered_is_mutated (ms : list method) (s : Node) (w : world) :
  let s' := fst (run_calls env ms (s, w)) in
  name s' = name s /\ location s' = location s /\
  plant_id s' = plant_id s /\ disease_status s' = disease_status s /\
  time_offset s' = time_offset s /\
  gas_resistance_base s' = gas_resistance_base s.
Proof.
  cbv zeta. pose proof (run_calls_same_fixed_fields ms s w) as H.
  unfold same_fixed_fields in H. decompose [and] H.
  repeat split; symmetry; assumption.
Qed.

(** C4: the constructor gives a healthy node the baseline 150.0 and an
    infected node 50.0; no sequence of method calls changes it; and the
    [gasResistance] of every reading is the baseline plus the fourth draw
    of the call, [gauss(0, baseline * 0.1)], rounded to 2 decimals. *)
Theorem gas_resistance_baseline_fixed :
  (forall nm loc pid w, exists s w',
      SensorSimulator_init env nm loc pid "healthy" w = (Ok s, w') /\
      gas_resistance_base s = fconst 150) /\
  (forall nm loc pid w, exists s w',
      SensorSimulator_init env nm loc pid "infected" w = (Ok s, w') /\
      gas_resistance_base s = fconst 50) /\
  (forall ms (s : Node) (w : world),
      gas_resistance_base (fst (run_calls env ms (s, w)))
      = gas_resistance_base s) /\
  (forall (s : Node) (w : world), exists reading w',
      generate_reading env (s, w) = (Ok reading, (s, w')) /\
      r_gasResistance reading =
        fround (fadd (gas_resistance_base s)
                  (random_gauss env (3 + rng w) (fconst 0)
                     (fmul (gas_resistance_base s) (fconst 0.1)))) 2).
Proof.
  split; [|split; [|split]].
  - intros. do 2 eexists. split; reflexivity.
  - intros. do 2 eexists. split; reflexivity.
  - intros. symmetry. apply (run_calls_same_fixed_fields ms s w).
  - intros [nm loc pid dis off reg base] [url clk rg ps sl lg].
    do 2 eexists. split; [run_program; reflexivity|].
    run_program. reflexivity.
Qed.

(** ** The transport driver: [register] *)

(** C7: a call of [register] makes one request and no second one; it
    stores [True] into [registered] exactly when that request is answered
    with status 200, and the flag is set after such a call; after a
    connection failure, a non-200 answer or any other outcome the node is
    as it was before the call, so that a node that was unregistered stays
    unregistered.  Whatever the outcome, the other attributes of the node
    are as before. *)
Theorem register_marks_iff_accepted (s : Node) (w : world) :
  let url := (BASE_URL w ++ "/register")%string in
  let res :=
    requests_post env (posts w) url (RegisterBody (name s) (location s)) in
  exists r s' w' tr,
    register env (s, w) = (r, (s', w')) /\
    log w' = log w ++ tr /\
    registrations tr = [(url, res)] /\
    submissions tr = [] /\
    calls_of "register" tr = 1%nat /\
    assignments tr = (if accepted res then [true] else []) /\
    same_fixed_fields s s' /\
    registered s' = (accepted res || registered s)%bool /\
    (accepted res = true -> r = Ok tt /\ registered s' = true) /\
    (accepted res = false -> s' = s) /\
    (registered s = false -> (registered s' = true <-> accepted res = true)) /\
    (res = PostRaises ConnectionError -> r = Ok tt /\ s' = s).
Proof.
  cbv zeta.
  destruct s as [nm loc pid dis off reg base], w as [url clk rg ps sl lg].
  run_program.
  destruct (requests_post env ps (url ++ "/register")%string
              (RegisterBody nm loc)) as [[code body]|e].
  - cbn [status_code]. destruct (code =? 200).
    + flatten_log. do 4 eexists. split; [reflexivity|].
      split; [reflexivity|]. cbn.
      repeat split; try discriminate; try reflexivity; intros; subst;
        try reflexivity; discriminate.
    + destruct body; flatten_log; do 4 eexists;
        (split; [reflexivity|]); (split; [reflexivity|]); cbn;
        repeat split; try discriminate; try reflexivity; intros; subst;
        try reflexivity; discriminate.
  - destruct e; flatten_log; do 4 eexists;
      (split; [reflexivity|]); (split; [reflexivity|]); cbn;
      repeat split; try discriminate; try reflexivity; intros; subst;
      try reflexivity; discriminate.
Qed.

(** ** Construction of the nodes *)

Lemma SensorSimulator_init_run nm loc pid disease (w : world) :
  exists s w',
    SensorSimulator_init env nm loc pid disease w = (Ok s, w') /\
    disease_status s = disease.
Proof. do 2 eexists. split; reflexivity. Qed.

Lemma create_sensors_run (count : nat) :
  forall (i : Z) (acc : list Node) (w : world),
  exists new w',
    create_sensors env count i acc w = (Ok (acc ++ new), w') /\
    List.length new = count /\
    forall j, (j < count)%nat ->
      nth_error (map disease_status new) j
      = Some (every_third_infected (i + Z.of_nat j)).
Proof.
  induction count as [|count IH]; intros i acc w.
  - exists [], w. simpl. rewrite app_nil_r. repeat split. intros j Hj. lia.
  - cbn [create_sensors]. unfold bind at 1.
    set (disease := if negb (i mod 3 =? 2) then "healthy" else "infected").
    destruct (SensorSimulator_init_run
                ("sensor_" ++ format_0d 2 (i + 1))
                ("greenhouse_zone_" ++ str_of_Z (i + 1))
                ("plant_" ++ format_0d 3 (i + 1)) disease w)
      as (s & w1 & Hinit & Hs).
    rewrite Hinit.
    destruct (IH (i + 1) (acc ++ [s]) w1) as (new & w2 & Hrun & Hlen & Hnth).
    exists (s :: new), w2. rewrite Hrun, <- app_assoc. simpl.
    repeat split; [congruence|].
    intros [|j] Hj; simpl.
    + rewrite Hs, Z.add_0_r. unfold disease, every_third_infected.
      destruct (i mod 3 =? 2); reflexivity.
    + rewrite Hnth by lia. do 2 f_equal. lia.
Qed.

(** C5: for every node count [n] given on the command line, [main] builds
    [n] nodes (none when [n] is negative), and the node at 0-indexed
    position [i] is classified infected when [i mod 3 = 2] and healthy
    otherwise. *)
Theorem every_third_node_infected (args : Args float) (w : world) :
  exists sensors w',
    main_setup env args w = (Ok sensors, w') /\
    List.length sensors = Z.to_nat (arg_sensors args) /\
    forall i : nat,
      nth_error (map disease_status sensors) i =
      if (i <? Z.to_nat (arg_sensors args))%nat
      then Some (if Z.of_nat i mod 3 =? 2 then "infected" else "healthy")
      else None.
Proof.
  unfold main_setup, bind at 1 2. unfold assign_BASE_URL.
  match goal with
  | |- context [create_sensors env ?c ?i ?acc ?w0] =>
      destruct (create_sensors_run c i acc w0) as (new & w1 & Hrun & Hlen & Hnth)
  end.
  rewrite Hrun. cbn [app].
  eexists new, _. split; [reflexivity|]. split; [exact Hlen|].
  intros i. destruct (Nat.ltb_spec i (Z.to_nat (arg_sensors args))) as [Hi|Hi].
  - rewrite Hnth by exact Hi. reflexivity.
  - apply nth_error_None. rewrite length_map. lia.
Qed.

(** ** The transport driver: [send_reading] *)

Ltac case_post :=
  match goal with
  | |- context [match requests_post ?e ?k ?u ?b with _ => _ end] =>
      let code := fresh "code" in
      let body := fresh "body" in
      let ex := fresh "ex" in
      destruct (requests_post e k u b) as [[code body]|ex];
      [ destruct (code =? 200) eqn:?; [|destruct body] | destruct ex ]
  end.

Ltac use_status :=
  repeat match goal with
         | H : (?c =? 200) = _ |- context [?c =? 200] => rewrite H
         end.

Ltac observe :=
  cbn [calls_of submissions registrations assignments printed
       first_submission after_first_submission accepted
       app map fst snd List.length In
       String.eqb Ascii.eqb Bool.eqb
       status_code json_body registered name location].

Ltac in_submissions :=
  let sub := fresh "sub" in
  let H := fresh "H" in
  intros sub H; cbn [submissions app In] in H;
  repeat (destruct H as [<-|H]; [reflexivity|]); destruct H.

Ltac close_run :=
  flatten_log; do 4 eexists;
  (split; [reflexivity|]); (split; [reflexivity|]);
  observe; use_status;
  (split; [reflexivity|]); (split; [lia|]); (split; [in_submissions|]);
  repeat first [ progress observe | progress use_status
               | split | reflexivity | discriminate | eexists ].

(** The [try] statement, from the request it starts with. *)
Lemma send_reading_try_run (reading : Reading float pyint)
  (s : Node) (w : world) :
  let url := (BASE_URL w ++ "/update")%string in
  let first := requests_post env (posts w) url (ReadingBody reading) in
  exists r s' w' after,
    send_reading_try env reading (s, w) = (r, (s', w')) /\
    log w' = log w ++ Post url (ReadingBody reading) first :: after /\
    calls_of "generate_reading" after = 0%nat /\
    (List.length (submissions after) <= 1)%nat /\
    (forall sub, In sub (submissions after) ->
       fst sub = (url, reading)) /\
    match first with
    | Responds rsp =>
        if status_code rsp =? 200
        then after = [Print (sent_line (name s) reading)] /\
             r = Ok tt /\ s' = s
        else
          exists res2 rest,
            after =
              Print ("[" ++ name s ++ "] Update failed, re-registering...")%string
              :: Assign (name s) false
              :: Call "register" (name s)
              :: Post (BASE_URL w ++ "/register")%string
                   (RegisterBody (name s) (location s)) res2
              :: rest /\
            calls_of "register" rest = 0%nat /\
            registrations rest = [] /\
            registered s' = accepted res2 /\
            match fst (fst (fst (register_outcome s res2))) with
            | Ok _ => exists second, submissions after = [(url, reading, second)]
            | Raise e => r = Raise e /\ submissions after = []
            end
    | PostRaises e =>
        s' = s /\
        if exn_eqb e ConnectionError
        then after = [Print ("[" ++ name s ++ "] Connection failed")%string] /\
             r = Ok tt
        else after = [] /\ r = Raise e
    end.
Proof.
  destruct s as [nm loc pid dis off reg base], w as [url clk rg ps sl lg].
  run_program.
  case_post; run_program; try solve [close_run].
  all: case_post; run_program; try solve [close_run].
  all: case_post; run_program; solve [close_run].
Qed.

Ltac run_driver :=
  cbv beta iota zeta delta
    [send_reading register generate_reading
     bind try_except attr call lift global_BASE_URL print emit
     assign_registered post json ret raise with_log now gauss
     set_registered
     BASELINES_temperature BASELINES_humidity BASELINES_pressure
     BASELINES_mq2_r0
     BASE_URL clock rng posts sleeps log
     name location plant_id disease_status time_offset registered
     gas_resistance_base status_code json_body
     fst snd exn_eqb negb].

(** [send_reading] up to its [try] statement: either the registration it
    starts with raises, or the [try] statement runs on a reading that
    [generate_reading] returns for the clock and random state of the
    call. *)
Lemma send_reading_run (s : Node) (w : world) :
  (exists e w' tr,
      send_reading env (s, w) = (Raise e, (s, w')) /\
      log w' = log w ++ tr /\
      submissions tr = [] /\ calls_of "generate_reading" tr = 0%nat /\
      e <> ConnectionError)
  \/
  (exists s1 w2 reading pre,
      send_reading env (s, w) = send_reading_try env reading (s1, w2) /\
      log w2 = log w ++ pre ++ [Call "generate_reading" (name s)] /\
      submissions pre = [] /\ calls_of "generate_reading" pre = 0%nat /\
      name s1 = name s /\ location s1 = location s /\
      BASE_URL w2 = BASE_URL w /\
      fst (generate_reading env (s, w)) = Ok reading).
Proof.
  destruct s as [nm loc pid dis off reg base], w as [url clk rg ps sl lg].
  destruct reg; run_driver.
  - right. flatten_log. do 3 eexists.
    exists [Call "send_reading" nm].
    split; [reflexivity|]. split; [reflexivity|]. repeat split.
  - case_post; run_driver; flatten_log;
      first
        [ right;
          lazymatch goal with
          | |- context [send_reading_try env _
                          (_, @mkWorld _ _ _ _ _ _ _ (lg ++ ?l))] =>
              do 3 eexists; exists (removelast l)
          end;
          cbn [removelast];
          (split; [reflexivity|]); (split; [reflexivity|]);
          repeat split
        | left; do 3 eexists;
          (split; [reflexivity|]); (split; [reflexivity|]);
          repeat split; discriminate ].
Qed.

(** C1, as the code has it: a call of [send_reading] makes at most two
    submissions.  When the first one is answered with a status other than
    200, the driver prints that it re-registers, stores [False] into
    [registered], calls [register] once more (and only once), and the node
    ends up registered exactly when that registration was accepted; when
    [register] returns, the same reading is submitted to the same URL
    exactly once more, and when it raises, its exception leaves the call.
    When the first submission fails with [ConnectionError], the driver
    only prints [Connection failed]: no store to [registered], no call of
    [register], no second submission. *)
Theorem send_reading_retry_policy (s : Node) (w : world) :
  exists r s' w' tr,
    send_reading env (s, w) = (r, (s', w')) /\
    log w' = log w ++ tr /\
    (List.length (submissions tr) <= 2)%nat /\
    (forall rsp,
        first_submission tr = Some (Responds rsp) ->
        status_code rsp <> 200 ->
        exists res2 rest,
          after_first_submission tr =
            Print ("[" ++ name s ++ "] Update failed, re-registering...")%string
            :: Assign (name s) false
            :: Call "register" (name s)
            :: Post (BASE_URL w ++ "/register")%string
                 (RegisterBody (name s) (location s)) res2
            :: rest /\
          calls_of "register" rest = 0%nat /\
          registrations rest = [] /\
          registered s' = accepted res2 /\
          match fst (fst (fst (register_outcome s res2))) with
          | Ok _ =>
              exists reading second,
                submissions tr =
                  [((BASE_URL w ++ "/update")%string, reading, Responds rsp);
                   ((BASE_URL w ++ "/update")%string, reading, second)]
          | Raise e =>
              r = Raise e /\ List.length (submissions tr) = 1%nat
          end) /\
    (first_submission tr = Some (PostRaises ConnectionError) ->
        after_first_submission tr =
          [Print ("[" ++ name s ++ "] Connection failed")%string] /\
        r = Ok tt /\
        List.length (submissions tr) = 1%nat).
Proof.
  destruct (send_reading_run s w)
    as [(e & w' & tr & Hrun & Hlog & Hsub & _ & _)
       |(s1 & w2 & reading & pre & Hrun & Hlog & Hsub & _ & Hnm & Hloc & Hurl & _)].
  - exists (Raise e), s, w', tr. unfold first_submission. rewrite Hsub.
    repeat split; try assumption; simpl; try lia; discriminate.
  - destruct (send_reading_try_run reading s1 w2)
      as (r & s' & w' & after & Htry & Hlog' & _ & Hlen & Hin & Hcase).
    rewrite Hurl, Hlog in Hlog'. rewrite Hurl, ?Hnm, ?Hloc in Hcase.
    rewrite Hurl in Hin.
    set (first := requests_post env (posts w2) (BASE_URL w ++ "/update")%string
                    (ReadingBody reading)) in *.
    set (sub1 := Post (BASE_URL w ++ "/update")%string (ReadingBody reading)
                   first) in *.
    exists r, s', w', ((pre ++ [Call "generate_reading" (name s)])
                        ++ sub1 :: after).
    assert (Hpre : submissions (pre ++ [Call "generate_reading" (name s)]) = [])
      by (rewrite submissions_app, Hsub; reflexivity).
    destruct (first_submission_skip _ (BASE_URL w ++ "/update")%string
                reading first after Hpre) as [Hfirst Hafter].
    fold sub1 in Hfirst, Hafter.
    assert (Hall : submissions ((pre ++ [Call "generate_reading" (name s)])
                                  ++ sub1 :: after)
                   = ((BASE_URL w ++ "/update")%string, reading, first)
                       :: submissions after)
      by (rewrite submissions_app, Hpre; reflexivity).
    rewrite Hfirst, Hafter, Hall.
    split; [rewrite Hrun; exact Htry|].
    split; [rewrite Hlog', <- !app_assoc; reflexivity|].
    split; [simpl; lia|]. split.
    + intros rsp Heq Hcode. injection Heq as Heq. rewrite Heq in Hcase.
      apply Z.eqb_neq in Hcode. rewrite Hcode in Hcase.
      destruct Hcase as (res2 & rest & Ha & Hc & Hr & Hreg & Hout).
      exists res2, rest. repeat split; try assumption.
      replace (fst (fst (fst (register_outcome s res2))))
        with (fst (fst (fst (register_outcome s1 res2))))
        by (destruct res2 as [[code body]|[]]; simpl;
            [destruct (code =? 200); [|destruct body]|..]; reflexivity).
      destruct (fst (fst (fst (register_outcome s1 res2)))) as [[]|e].
      * destruct Hout as [second Hs]. exists reading, second.
        rewrite Hs, Heq. reflexivity.
      * destruct Hout as [-> Hs]. rewrite Hs. split; reflexivity.
    + intros Heq. injection Heq as Heq. rewrite Heq in Hcase.
      destruct Hcase as (_ & -> & ->). simpl. repeat split.
Qed.

(** [send_reading] as its opening followed by the rest of the call. *)
Lemma send_reading_opens (s : Node) (w : world) :
  send_reading env (s, w) =
  match (if registered s
         then (Ok tt, (s, with_log w (Call "send_reading" (name s))))
         else register env (s, with_log w (Call "send_reading" (name s)))) with
  | (Ok _, st) => bind (generate_reading env) (send_reading_try env) st
  | (Raise e, st) => (Raise e, st)
  end.
Proof.
  destruct s as [nm loc pid dis off reg base], w as [url clk rg ps sl lg].
  destruct reg;
    cbv beta iota zeta delta
      [send_reading bind call attr ret negb registered name with_log
       BASE_URL clock rng posts sleeps log fst snd];
    reflexivity.
Qed.

Ltac run_register :=
  cbv beta iota zeta delta
    [register bind try_except attr call lift global_BASE_URL print emit
     assign_registered post json ret raise with_log set_registered
     BASE_URL clock rng posts sleeps log
     name location plant_id disease_status time_offset registered
     gas_resistance_base status_code json_body fst snd exn_eqb].

Ltac after_opening :=
  lazymatch goal with
  | |- context [generate_reading env (?s1, ?w1)] =>
      let reading := fresh "reading" in
      let Hgen := fresh "Hgen" in
      destruct (generate_reading_run s1 w1) as [reading Hgen];
      cbn [name BASE_URL clock rng posts sleeps log] in Hgen;
      rewrite Hgen;
      lazymatch goal with
      | |- context [send_reading_try env reading (?s2, ?w2)] =>
          let r := fresh "r" in
          let s' := fresh "s'" in
          let w' := fresh "w'" in
          let after := fresh "after" in
          let Htry := fresh "Htry" in
          let Hlog := fresh "Hlog" in
          let Hg := fresh "Hg" in
          let Hlen := fresh "Hlen" in
          let Hin := fresh "Hin" in
          destruct (send_reading_try_run reading s2 w2)
            as (r & s' & w' & after & Htry & Hlog & Hg & Hlen & Hin & _);
          cbn [name BASE_URL clock rng posts sleeps log] in Htry, Hlog, Hin;
          exists reading, w2, r, s', w'; eexists _, _, after;
          split; [reflexivity|];
          split; [exact Htry|];
          split; [flatten_log; reflexivity|];
          split; [refine (eq_trans Hlog _); flatten_log; cbn [app];
                  reflexivity|];
          split; [reflexivity|];
          split; [reflexivity|];
          split; [exact Hg|];
          split; [exact Hlen | exact Hin]
      end
  end.

(** C10, as the code has it.  A call of [send_reading] opens with
    [register] when the node is not registered.  When it gets past that
    opening (the node is registered, or [register] returns), it calls
    [generate_reading] exactly once, directly before its first
    submission, and every submission of the call, the retry included,
    goes to the update URL with the one reading that this call of
    [generate_reading] returned.  When the opening [register] raises, its
    exception ends the call before any reading is generated or
    submitted. *)
Theorem send_reading_generates_once (s : Node) (w : world) :
  let entered := with_log w (Call "send_reading" (name s)) in
  match (if registered s
         then (Ok tt, (s, entered))
         else register env (s, entered)) with
  | (Ok _, (s1, w1)) =>
      exists reading w2 r s' w' pre first rest,
        generate_reading env (s1, w1) = (Ok reading, (s1, w2)) /\
        send_reading env (s, w) = (r, (s', w')) /\
        log w1 = log w ++ pre /\
        log w' = log w ++ pre ++ Call "generate_reading" (name s)
                   :: Post (BASE_URL w ++ "/update")%string
                        (ReadingBody reading) first
                   :: rest /\
        calls_of "generate_reading" pre = 0%nat /\
        submissions pre = [] /\
        calls_of "generate_reading" rest = 0%nat /\
        (List.length (submissions rest) <= 1)%nat /\
        forall sub, In sub (submissions rest) ->
          fst sub = ((BASE_URL w ++ "/update")%string, reading)
  | (Raise e, (s1, w1)) =>
      send_reading env (s, w) = (Raise e, (s1, w1)) /\
      exists tr, log w1 = log w ++ tr /\
                 calls_of "generate_reading" tr = 0%nat /\
                 submissions tr = []
  end.
Proof.
  cbv zeta. rewrite send_reading_opens.
  destruct s as [nm loc pid dis off reg base], w as [url clk rg ps sl lg].
  cbn [registered name]. unfold with_log.
  cbn [BASE_URL clock rng posts sleeps log].
  destruct reg.
  - unfold bind. after_opening.
  - run_register. case_post; run_register;
      first [ after_opening
            | split; [reflexivity|]; flatten_log; eexists;
              split; [reflexivity|]; split; reflexivity ].
Qed.

(** ** Which exceptions leave the driver *)




(** *** Failures that are reported *)






(** ** The decimal formats of the node names *)

Lemma length_append (a b : string) :
  String.length (a ++ b)%string = (String.length a + String.length b)%nat.
Proof. induction a as [|c a IH]; cbn; [reflexivity | now rewrite IH]. Qed.

Lemma length_str_repeat (s : string) (n : nat) :
  String.length (str_repeat s n) = (n * String.length s)%nat.
Proof.
  induction n as [|n IH]; [reflexivity|].
  cbn [str_repeat]. rewrite length_append, IH. lia.
Qed.

Lemma zeros_then_digits (k : nat) (d : Decimal.uint) :
  (str_repeat "0" k ++ NilEmpty.string_of_uint d)%string
  = NilEmpty.string_of_uint (Nat.iter k Decimal.D0 d).
Proof.
  induction k as [|k IH]; [reflexivity|].
  cbn [str_repeat Nat.iter]. cbn. rewrite IH. reflexivity.
Qed.

Lemma iter_D0_nonnil (k : nat) (d : Decimal.uint) :
  d <> Decimal.Nil -> Nat.iter k Decimal.D0 d <> Decimal.Nil.
Proof. destruct k; cbn; [trivial | discriminate]. Qed.

Lemma of_uint_iter_D0 (k : nat) (d : Decimal.uint) :
  Z.of_uint (Nat.iter k Decimal.D0 d) = Z.of_uint d.
Proof.
  induction k as [|k IH]; [reflexivity|]. cbn [Nat.iter].
  unfold Z.of_uint in *. cbn [Pos.of_uint]. exact IH.
Qed.

(** The digits of a number that is not negative. *)
Lemma str_of_Z_digits (n : Z) :
  0 <= n ->
  exists d, d <> Decimal.Nil /\
            str_of_Z n = NilEmpty.string_of_uint d /\ Z.of_uint d = n.
Proof.
  intros Hn. destruct n as [|p|p]; [| |lia].
  - exists (Decimal.D0 Decimal.Nil). repeat split. discriminate.
  - exists (Pos.to_uint p). split; [apply DecimalPos.Unsigned.to_uint_nonnil|].
    split.
    + unfold str_of_Z. cbn [Z.to_int NilZero.string_of_int].
      pose proof (DecimalPos.Unsigned.to_uint_nonnil p) as Hp.
      destruct (Pos.to_uint p); [contradiction| ..]; reflexivity.
    + exact (DecimalZ.of_to (Zpos p)).
Qed.

Lemma format_0d_nonneg (width : nat) (n : Z) :
  0 <= n ->
  format_0d width n
  = (str_repeat "0" (width - String.length (str_of_Z n)) ++ str_of_Z n)%string.
Proof.
  intros Hn. unfold format_0d.
  destruct (Z.ltb_spec n 0); [lia | reflexivity].
Qed.

Lemma parse_format_0d (width : nat) (n : Z) :
  0 <= n -> parse_decimal (format_0d width n) = Some n.
Proof.
  intros Hn. destruct (str_of_Z_digits n Hn) as (d & Hd & Hs & Hv).
  rewrite format_0d_nonneg by exact Hn.
  unfold parse_decimal. rewrite Hs, zeros_then_digits.
  set (k := (width - String.length (NilEmpty.string_of_uint d))%nat).
  pose proof (iter_D0_nonnil k d Hd) as Hk.
  pose proof (NilZero.isi (Decimal.Pos (Nat.iter k Decimal.D0 d))) as Hisi.
  cbn [NilZero.string_of_int] in Hisi.
  replace (NilZero.string_of_uint (Nat.iter k Decimal.D0 d))
    with (NilEmpty.string_of_uint (Nat.iter k Decimal.D0 d)) in Hisi
    by (destruct (Nat.iter k Decimal.D0 d); [contradiction|..]; reflexivity).
  rewrite Hisi; [| intros [= H]; contradiction | discriminate].
  cbn [option_map Z.of_int]. rewrite of_uint_iter_D0, Hv. reflexivity.
Qed.

(** X1: the zero-padded decimal formats of [main] ([:02d], [:03d]) pad
    and never cut.  For [n >= 0] the text of [n] at a width is as long as
    the width, or as long as the plain decimal of [n] when that is longer;
    a number whose decimal fills the width is written as that decimal;
    and two numbers with the same text at one width are the same
    number. *)
Theorem format_0d_pads_never_cuts (width : nat) (n m : Z) :
  0 <= n ->
  String.length (format_0d width n)
  = Nat.max width (String.length (str_of_Z n)) /\
  ((width <= String.length (str_of_Z n))%nat ->
   format_0d width n = str_of_Z n) /\
  (0 <= m -> format_0d width n = format_0d width m -> n = m).
Proof.
  intros Hn. split; [|split].
  - rewrite format_0d_nonneg by exact Hn.
    rewrite length_append, length_str_repeat.
    cbn [String.length]. lia.
  - intros Hw. rewrite format_0d_nonneg by exact Hn.
    replace (width - String.length (str_of_Z n))%nat with 0%nat by lia.
    reflexivity.
  - intros Hm Heq. apply (f_equal parse_decimal) in Heq.
    rewrite !parse_format_0d in Heq by assumption. congruence.
Qed.

(** ** The nodes [main] builds *)

Lemma create_sensors_nodes (count : nat) :
  forall (i : Z) (acc : list Node) (w : world),
    create_sensors env count i acc w =
    (Ok (acc ++ map (fun j => built_node env (i + Z.of_nat j) (rng w + j))
                    (seq 0 count)),
     mkWorld (BASE_URL w) (clock w) (rng w + count) (posts w) (sleeps w)
             (log w)).
Proof.
  induction count as [|count IH]; intros i acc w.
  - cbn. rewrite app_nil_r, Nat.add_0_r. destruct w; reflexivity.
  - cbn [create_sensors]. unfold bind at 1.
    unfold SensorSimulator_init, bind, uniform, ret. cbn iota beta.
    rewrite IH. cbn [rng BASE_URL clock posts sleeps log].
    rewrite <- app_assoc. cbn [app seq map].
    rewrite <- seq_shift, map_map.
    f_equal; [|f_equal; lia]. f_equal. f_equal. f_equal.
    + unfold built_node, every_third_infected.
      rewrite Z.add_0_r, Nat.add_0_r.
      destruct (i mod 3 =? 2); reflexivity.
    + apply map_ext. intros j. f_equal; lia.
Qed.

Lemma append_same_head (a b c : string) :
  (a ++ b)%string = (a ++ c)%string -> b = c.
Proof.
  induction a as [|x a IH]; cbn; [trivial|]. intros [= H]. apply IH, H.
Qed.

Lemma name_of_node_injective (i j : nat) (d d' : nat) :
  name (built_node env (Z.of_nat i) d) = name (built_node env (Z.of_nat j) d')
  -> i = j.
Proof.
  unfold built_node. cbn [name plant_id]. intros H.
  apply append_same_head in H.
  apply (f_equal parse_decimal) in H.
  rewrite !parse_format_0d in H by lia. injection H as H. lia.
Qed.

Lemma plant_id_of_node_injective (i j : nat) (d d' : nat) :
  plant_id (built_node env (Z.of_nat i) d)
  = plant_id (built_node env (Z.of_nat j) d') -> i = j.
Proof.
  unfold built_node. cbn [name plant_id]. intros H.
  apply append_same_head in H.
  apply (f_equal parse_decimal) in H.
  rewrite !parse_format_0d in H by lia. injection H as H. lia.
Qed.

Lemma location_of_node_injective (i j : nat) (d d' : nat) :
  location (built_node env (Z.of_nat i) d)
  = location (built_node env (Z.of_nat j) d') -> i = j.
Proof.
  unfold built_node. cbn [location]. intros H.
  apply append_same_head in H.
  assert (E : forall n, 0 <= n -> str_of_Z n = format_0d 0 n)
    by (intros n Hn; rewrite format_0d_nonneg by exact Hn; reflexivity).
  rewrite (E (Z.of_nat i + 1)), (E (Z.of_nat j + 1)) in H by lia.
  apply (f_equal parse_decimal) in H.
  rewrite !parse_format_0d in H by lia. injection H as H. lia.
Qed.

Lemma main_setup_nodes (args : Args float) (w : world) :
  exists w',
    main_setup env args w =
    (Ok (map (fun j => built_node env (Z.of_nat j) (rng w + j))
             (seq 0 (Z.to_nat (arg_sensors args)))), w') /\
    BASE_URL w' = arg_url args /\
    rng w' = (rng w + Z.to_nat (arg_sensors args))%nat /\
    clock w' = clock w /\ posts w' = posts w /\ sleeps w' = sleeps w /\
    exists lines, log w' = log w ++ map (@Print float pyint) lines /\
                  List.length lines = 4%nat /\
                  ~ In stopped_line lines.
Proof.
  unfold main_setup, bind at 1 2. unfold assign_BASE_URL.
  rewrite create_sensors_nodes. cbn [app rng BASE_URL clock posts sleeps log].
  unfold bind, print, emit, ret, with_log.
  cbn [rng BASE_URL clock posts sleeps log].
  eexists. split; [reflexivity|]. cbn [rng BASE_URL clock posts sleeps log].
  repeat split.
  eexists [_; _; _; _]. split; [|split; [reflexivity|]].
  - cbn [map]. rewrite <- !app_assoc. reflexivity.
  - unfold stopped_line, newline. cbn [In].
    intros [H|[H|[H|[H|[]]]]]; cbn in H; discriminate H.
Qed.

(** X2: the nodes [main] builds, position by position.  The setup of
    [main] returns; its list has [args.sensors] entries (none when that
    number is negative); entry [i] is named [sensor_] with [i+1] at width
    two, sits in [greenhouse_zone_<i+1>], carries [plant_] with [i+1] at
    width three, is infected exactly when [i mod 3 = 2] with the gas
    baseline that goes with it, is not registered, and has as phase offset
    the [i]-th draw [uniform(0, 2*pi)] of the run.  Building the nodes
    takes one draw each and makes no request, reads no clock and does not
    sleep; the base address is [args.url] afterwards. *)
Theorem main_builds_nodes_by_position (args : Args float) (w : world) :
  let n := Z.to_nat (arg_sensors args) in
  exists sensors w',
    main_setup env args w = (Ok sensors, w') /\
    (forall i : nat,
        nth_error sensors i =
        if (i <? n)%nat
        then Some (built_node env (Z.of_nat i) (rng w + i))
        else None) /\
    rng w' = (rng w + n)%nat /\
    posts w' = posts w /\ sleeps w' = sleeps w /\ clock w' = clock w /\
    BASE_URL w' = arg_url args.
Proof.
  cbv zeta.
  destruct (main_setup_nodes args w)
    as (w' & Hrun & Hurl & Hrng & Hclk & Hposts & Hsl & _).
  eexists _, w'. split; [exact Hrun|]. repeat split; try assumption.
  intros i. destruct (Nat.ltb_spec i (Z.to_nat (arg_sensors args))) as [Hi|Hi].
  - rewrite nth_error_map, nth_error_seq.
    destruct (Nat.ltb_spec i (Z.to_nat (arg_sensors args))); [|lia].
    reflexivity.
  - apply nth_error_None. rewrite length_map, length_seq. exact Hi.
Qed.

(** X3: no two nodes of a run share a name, a location or a plant id,
    however many nodes are asked for (the width of the format grows past
    99 and 999 nodes rather than cutting digits). *)
Theorem node_names_are_distinct (args : Args float) (w : world) :
  exists sensors w',
    main_setup env args w = (Ok sensors, w') /\
    NoDup (map name sensors) /\
    NoDup (map location sensors) /\
    NoDup (map plant_id sensors).
Proof.
  destruct (main_setup_nodes args w) as (w' & Hrun & _).
  eexists _, w'. split; [exact Hrun|].
  rewrite !map_map.
  repeat split; apply NoDup_map_NoDup_ForallPairs;
    try apply seq_NoDup; intros i j _ _ H.
  - eapply name_of_node_injective; exact H.
  - eapply location_of_node_injective; exact H.
  - eapply plant_id_of_node_injective; exact H.
Qed.

(** ** More on [generate_reading] *)

Lemma generate_reading_identity (s : Node) (w : world) :
  exists reading,
    generate_reading env (s, w) =
    (Ok reading,
     (s, mkWorld (BASE_URL w) (S (S (clock w))) (9 + rng w) (posts w)
           (sleeps w) (log w ++ [Call "generate_reading" (name s)]))) /\
    r_name reading = name s /\ r_plant_id reading = plant_id s /\
    r_disease_status reading = disease_status s.
Proof.
  destruct s as [nm loc pid dis off reg base], w as [url clk rg ps sl lg].
  eexists. split; [run_program; reflexivity|]. repeat split.
Qed.

(** X4: a reading depends on the identity of the node, the clock and the
    random source, and on nothing else.  Two calls of [generate_reading]
    on nodes that differ at most in [registered], at the same clock and
    draw position, return the same reading, whatever the base address,
    the requests made so far and the console show; and the call leaves the
    node as it is, makes no request and prints nothing. *)
Theorem reading_ignores_registration_and_history
  (s s' : Node) (w w' : world) :
  same_fixed_fields s s' -> clock w = clock w' -> rng w = rng w' ->
  fst (generate_reading env (s, w)) = fst (generate_reading env (s', w')) /\
  fst (snd (generate_reading env (s, w))) = s /\
  posts (snd (snd (generate_reading env (s, w)))) = posts w /\
  printed (log (snd (snd (generate_reading env (s, w))))) = printed (log w).
Proof.
  destruct s as [nm loc pid dis off reg base], w as [url clk rg ps sl lg].
  destruct s' as [nm' loc' pid' dis' off' reg' base'],
           w' as [url' clk' rg' ps' sl' lg'].
  unfold same_fixed_fields. cbn [name location plant_id disease_status
    time_offset gas_resistance_base clock rng].
  intros (<- & <- & <- & <- & <- & <-) <- <-.
  run_program. cbn [printed]. rewrite printed_app, app_nil_r. repeat split.
Qed.

(** ** More on [send_reading] *)

Ltac run_send :=
  cbv beta iota zeta delta
    [send_reading send_reading_try register
     bind try_except attr call lift global_BASE_URL print emit
     assign_registered post json ret raise with_log
     set_registered
     BASE_URL clock rng posts sleeps log
     name location plant_id disease_status time_offset registered
     gas_resistance_base status_code json_body
     fst snd exn_eqb negb].

Ltac gen_step :=
  match goal with
  | |- context [generate_reading env (?s1, ?w1)] =>
      let rd := fresh "rd" in
      let Hrd := fresh "Hrd" in
      let Hname := fresh "Hname" in
      let Hpid := fresh "Hpid" in
      let Hdis := fresh "Hdis" in
      destruct (generate_reading_identity s1 w1)
        as (rd & Hrd & Hname & Hpid & Hdis);
      rewrite Hrd; clear Hrd;
      cbn [name plant_id disease_status BASE_URL clock rng posts sleeps log]
        in Hname, Hpid, Hdis
  end.

Ltac drive_send :=
  run_send;
  repeat first [ case_post; run_send | gen_step; run_send ].

Ltac open_run :=
  flatten_log; do 4 eexists;
  (split; [reflexivity|]); (split; [reflexivity|]).

(** X5: after [send_reading], however it ends, the flag [registered]
    tells how the last registration request of the call went: it is set
    when that request was answered with status 200 and clear otherwise;
    a call that made no registration request leaves the flag as it was. *)
Theorem registered_follows_last_registration (s : Node) (w : world) :
  exists r s' w' tr,
    send_reading env (s, w) = (r, (s', w')) /\
    log w' = log w ++ tr /\
    registered s' =
      match last_registration tr with
      | Some res => accepted res
      | None => registered s
      end.
Proof.
  destruct s as [nm loc pid dis off reg base], w as [url clk rg ps sl lg].
  destruct reg; drive_send; open_run;
    cbv [last_registration]; cbn; use_status; reflexivity.
Qed.

(** X6: the requests of one [send_reading], in their order.  Every
    request counts once in the request counter; a call makes at most two
    registration requests and at most two submissions.  Before its first
    submission a registered node makes no registration request and an
    unregistered node exactly one; after the first submission there is at
    most one more registration, and only when that submission was
    answered with a status other than 200.  A registered node starts with
    [generate_reading] and the submission of that reading to
    [BASE_URL/update]; an unregistered one starts with [register] and its
    request to [BASE_URL/register] under the node's name and location. *)
Theorem send_reading_first_request_and_budget (s : Node) (w : world) :
  exists r s' w' tr,
    send_reading env (s, w) = (r, (s', w')) /\
    log w' = log w ++ tr /\
    posts w' = (posts w + List.length (registrations tr)
                + List.length (submissions tr))%nat /\
    (List.length (registrations tr) <= 2)%nat /\
    (List.length (submissions tr) <= 2)%nat /\
    (List.length (registrations tr) <= 1 + List.length (submissions tr))%nat /\
    List.length (registrations (before_first_submission tr))
    = (if registered s then 0 else 1)%nat /\
    (List.length (registrations (after_first_submission tr)) <= 1)%nat /\
    (List.length (registrations (after_first_submission tr)) = 1%nat ->
     exists rsp, first_submission tr = Some (Responds rsp) /\
                 status_code rsp <> 200) /\
    if registered s
    then exists reading res rest,
           tr = Call "send_reading" (name s)
                :: Call "generate_reading" (name s)
                :: Post (BASE_URL w ++ "/update")%string
                     (ReadingBody reading) res
                :: rest
    else exists res rest,
           tr = Call "send_reading" (name s)
                :: Call "register" (name s)
                :: Post (BASE_URL w ++ "/register")%string
                     (RegisterBody (name s) (location s)) res
                :: rest.
Proof.
  destruct s as [nm loc pid dis off reg base], w as [url clk rg ps sl lg].
  destruct reg; drive_send; open_run; cbn;
    (split; [lia|]); (split; [lia|]); (split; [lia|]); (split; [lia|]);
    (split; [reflexivity|]); (split; [lia|]);
    (split;
     [ intros Hone;
       first [ discriminate Hone
             | eexists; split; [reflexivity|];
               cbn [status_code]; apply Z.eqb_neq; assumption ]
     |]);
    repeat eexists.
Qed.




(** ** Who speaks in a run *)

Lemma speaks_for_same_fixed_fields base (a b : Node) (e : event float pyint) :
  same_fixed_fields a b -> speaks_for base a e -> speaks_for base b e.
Proof.
  unfold same_fixed_fields. intros (Hn & Hl & Hp & Hd & _).
  destruct e as [m who|url [nm loc|r] res|text|who v|d]; cbn;
    rewrite <- ?Hn, <- ?Hl, <- ?Hp, <- ?Hd; trivial.
Qed.

Lemma addressed_same_fixed_fields base (l l' : list Node)
  (e : event float pyint) :
  Forall2 same_fixed_fields l l' -> addressed base l e -> addressed base l' e.
Proof.
  intros Hl. assert (Hex : forall P : Node -> Prop,
                      (forall a b, same_fixed_fields a b -> P a -> P b) ->
                      Exists P l -> Exists P l').
  { intros P HP. induction Hl as [|a b l l' Hab _ IH]; intros Hex;
      inversion Hex; subst.
    - left. eapply HP; eassumption.
    - right. apply IH. assumption. }
  destruct e; unfold addressed; trivial; apply Hex;
    intros a b Hab; apply speaks_for_same_fixed_fields; exact Hab.
Qed.

Lemma speaks_then_addressed base (s : Node) (l : list Node)
  (e : event float pyint) :
  In s l -> speaks_for base s e -> addressed base l e.
Proof.
  intros Hin Hs. destruct e; unfold addressed; trivial;
    apply Exists_exists; eauto.
Qed.

Ltac speaks :=
  repeat first
    [ apply Forall_nil
    | apply Forall_cons;
      [cbn [speaks_for name location plant_id disease_status];
       repeat split; assumption || reflexivity|] ].

Lemma register_in_character : in_character (register env).
Proof.
  intros s w. split; [apply keeps_register|].
  pose proof (register_run s w) as Hrun. cbv zeta in Hrun.
  destruct (register_outcome s _) as [[[r s'] lines] stores] eqn:Hout.
  rewrite Hrun. cbn [fst snd BASE_URL log]. split; [reflexivity|].
  eexists. split; [reflexivity|].
  apply Forall_cons; [reflexivity|].
  apply Forall_cons; [cbn; repeat split|].
  apply Forall_app. split.
  - apply Forall_forall. intros e He. apply in_map_iff in He.
    destruct He as (line & <- & _). exact I.
  - apply Forall_forall. intros e He. apply in_map_iff in He.
    destruct He as (b & <- & _). reflexivity.
Qed.

Lemma send_reading_in_character : in_character (send_reading env).
Proof.
  intros s w. split; [apply keeps_send_reading|].
  destruct s as [nm loc pid dis off reg base], w as [url clk rg ps sl lg].
  destruct reg; drive_send; flatten_log; cbn [fst snd BASE_URL log];
    (split; [reflexivity|]); eexists; (split; [reflexivity|]); speaks.
Qed.

Lemma sleep_run (seconds : float) (w : world) :
  exists r count,
    sleep env seconds w =
    (r, mkWorld (BASE_URL w) (clock w) (rng w) (posts w) count
          (log w ++ [Sleep seconds])).
Proof.
  unfold sleep.
  destruct (fsleep seconds); [|destruct (sleep_interrupted env _ _)];
    do 2 eexists; reflexivity.
Qed.

Lemma register_and_pause_in_character : in_character (register_and_pause env).
Proof.
  intros s w. unfold register_and_pause, bind.
  destruct (register_in_character s w) as (Hk & Hu & tr & Hlog & Htr).
  destruct (register env (s, w)) as [[[]|e] [s1 w1]]; cbn [fst snd] in *.
  - unfold lift. cbn [fst snd].
    destruct (sleep_run (fconst 0.1) w1) as (r & count & ->).
    cbn [fst snd BASE_URL log].
    split; [exact Hk|]. split; [exact Hu|].
    exists (tr ++ [Sleep (fconst 0.1)]). rewrite Hlog, app_assoc.
    split; [reflexivity|]. apply Forall_app. split; [exact Htr|].
    constructor; [exact I | constructor].
  - split; [exact Hk|]. split; [exact Hu|]. exists tr. split; assumption.
Qed.

Lemma for_each_in_character (body : M (Node * world) unit) :
  in_character body ->
  forall (sensors : list Node) (w : world),
    Forall2 same_fixed_fields sensors
      (fst (snd (for_each body sensors w))) /\
    BASE_URL (snd (snd (for_each body sensors w))) = BASE_URL w /\
    exists tr, log (snd (snd (for_each body sensors w))) = log w ++ tr /\
               Forall (addressed (BASE_URL w) sensors) tr.
Proof.
  intros Hbody sensors.
  assert (Hrefl : forall l : list Node, Forall2 same_fixed_fields l l)
    by (induction l; constructor; trivial; apply same_fixed_fields_refl).
  induction sensors as [|s rest IH]; intros w.
  - cbn. repeat split; [constructor|]. exists []. rewrite app_nil_r.
    split; [reflexivity | constructor].
  - cbn [for_each]. destruct (Hbody s w) as (Hk & Hu & tr & Hlog & Htr).
    destruct (body (s, w)) as [[[]|e] [s1 w1]]; cbn [fst snd] in *.
    + destruct (IH w1) as (Hk' & Hu' & tr' & Hlog' & Htr').
      destruct (for_each body rest w1) as [r [rest' w2]]; cbn [fst snd] in *.
      split; [constructor; assumption|]. split; [congruence|].
      exists (tr ++ tr'). rewrite Hlog', Hlog, app_assoc.
      split; [reflexivity|]. apply Forall_app. split.
      * eapply Forall_impl; [|exact Htr]. intros e He.
        eapply speaks_then_addressed; [left; reflexivity | exact He].
      * rewrite Hu in Htr'. eapply Forall_impl; [|exact Htr'].
        intros e He. destruct e; unfold addressed in *; trivial;
          right; exact He.
    + split; [constructor; [assumption | apply Hrefl]|]. split; [exact Hu|].
      exists tr. split; [exact Hlog|].
      eapply Forall_impl; [|exact Htr]. intros e0 He.
      eapply speaks_then_addressed; [left; reflexivity | exact He].
Qed.

(** ** Whole runs of [main] *)

Lemma same_fixed_fields_sym (a b : Node) :
  same_fixed_fields a b -> same_fixed_fields b a.
Proof.
  unfold same_fixed_fields. intros H. decompose [and] H.
  repeat split; congruence.
Qed.

Lemma Forall2_same_fixed_fields_trans (l1 l2 l3 : list Node) :
  Forall2 same_fixed_fields l1 l2 -> Forall2 same_fixed_fields l2 l3 ->
  Forall2 same_fixed_fields l1 l3.
Proof.
  intros H12. revert l3. induction H12 as [|a b l1 l2 Hab _ IH]; intros l3 H23;
    inversion H23; subst; constructor.
  - eapply same_fixed_fields_trans; eassumption.
  - apply IH. assumption.
Qed.

Lemma Forall2_same_fixed_fields_sym (l1 l2 : list Node) :
  Forall2 same_fixed_fields l1 l2 -> Forall2 same_fixed_fields l2 l1.
Proof.
  induction 1; constructor; [apply same_fixed_fields_sym|]; assumption.
Qed.

Lemma Forall2_same_fixed_fields_refl (l : list Node) :
  Forall2 same_fixed_fields l l.
Proof. induction l; constructor; trivial. apply same_fixed_fields_refl. Qed.

Lemma main_loop_in_character (ticks : nat) :
  forall interval (sensors : list Node) (w : world),
    Forall2 same_fixed_fields sensors
      (fst (snd (main_loop env ticks interval sensors w))) /\
    BASE_URL (snd (snd (main_loop env ticks interval sensors w))) = BASE_URL w /\
    exists tr,
      log (snd (snd (main_loop env ticks interval sensors w))) = log w ++ tr /\
      Forall (addressed (BASE_URL w) sensors) tr.
Proof.
  induction ticks as [|ticks IH]; intros interval sensors w.
  - cbn. split; [apply Forall2_same_fixed_fields_refl|]. split; [reflexivity|].
    exists []. rewrite app_nil_r. split; [reflexivity | constructor].
  - cbn [main_loop].
    destruct (for_each_in_character (send_reading env)
                send_reading_in_character sensors w)
      as (Hk & Hu & tr & Hlog & Htr).
    destruct (for_each (send_reading env) sensors w) as [[[]|e] [l1 w1]];
      cbn [fst snd] in *.
    + destruct (sleep_run interval w1) as (r & count & Hsleep).
      rewrite Hsleep.
      set (w2 := mkWorld (BASE_URL w1) (clock w1) (rng w1) (posts w1)
                   count (log w1 ++ [Sleep interval])) in *.
      assert (Hall : Forall (addressed (BASE_URL w) sensors)
                       (tr ++ [Sleep interval])).
      { apply Forall_app. split; [exact Htr|].
        constructor; [exact I | constructor]. }
      destruct r as [[]|e]; cbn [fst snd].
      * destruct (IH interval l1 w2) as (Hk' & Hu' & tr' & Hlog' & Htr').
        split; [eapply Forall2_same_fixed_fields_trans; eassumption|].
        split; [rewrite Hu'; exact Hu|].
        exists ((tr ++ [Sleep interval]) ++ tr').
        rewrite Hlog'. subst w2. cbn [log BASE_URL] in *.
        rewrite Hlog, <- !app_assoc. split; [reflexivity|].
        rewrite app_assoc. apply Forall_app. split; [exact Hall|].
        rewrite Hu in Htr'. eapply Forall_impl; [|exact Htr'].
        intros e. apply addressed_same_fixed_fields.
        apply Forall2_same_fixed_fields_sym, Hk.
      * subst w2. cbn [log BASE_URL].
        split; [exact Hk|]. split; [exact Hu|].
        exists (tr ++ [Sleep interval]). rewrite Hlog, <- app_assoc.
        split; [reflexivity | exact Hall].
    + split; [exact Hk|]. split; [exact Hu|]. exists tr. split; assumption.
Qed.

Lemma main_in_character (args : Args float) (ticks : nat) (w0 : world) :
  exists created w1,
    main_setup env args w0 = (Ok created, w1) /\
    List.length created = Z.to_nat (arg_sensors args) /\
    Forall2 same_fixed_fields created
      (fst (snd (main env args ticks w0))) /\
    BASE_URL (snd (snd (main env args ticks w0))) = arg_url args /\
    exists tr,
      log (snd (snd (main env args ticks w0))) = log w0 ++ tr /\
      Forall (addressed (arg_url args) created) tr.
Proof.
  destruct (main_setup_nodes args w0)
    as (w1 & Hsetup & Hurl & _ & _ & _ & _ & lines & Hlog1 & _).
  eexists _, w1. split; [exact Hsetup|].
  split; [rewrite length_map, length_seq; reflexivity|].
  set (created := map _ _) in *.
  unfold main, main_startup. rewrite Hsetup.
  destruct (for_each_in_character (register_and_pause env)
              register_and_pause_in_character created w1)
    as (Hk & Hu & tr & Hlog & Htr).
  rewrite Hurl in *.
  assert (Hprints : Forall (addressed (arg_url args) created)
                      (map (@Print float pyint) lines)).
  { apply Forall_forall. intros e He. apply in_map_iff in He.
    destruct He as (line & <- & _). exact I. }
  destruct (for_each (register_and_pause env) created w1)
    as [[[]|e] [l1 w2]]; cbn [fst snd] in *.
  - unfold main_announce, bind, print, emit, with_log. cbn iota beta.
    cbn [BASE_URL clock rng posts sleeps log].
    match goal with
    | |- context [main_loop env ticks (arg_interval args) l1 ?w3] =>
        destruct (main_loop_in_character ticks (arg_interval args) l1 w3)
          as (Hk' & Hu' & tr' & Hlog' & Htr');
        destruct (main_loop env ticks (arg_interval args) l1 w3)
          as [[e|] [l2 w4]]
    end; cbn [fst snd BASE_URL log] in *.
    + assert (Hfinal :
          Forall2 same_fixed_fields created l2 /\
          BASE_URL w4 = arg_url args /\
          exists tr0, log w4 = log w0 ++ tr0 /\
                      Forall (addressed (arg_url args) created) tr0).
      { split; [eapply Forall2_same_fixed_fields_trans; eassumption|].
        split; [congruence|].
        eexists. rewrite Hlog', Hlog, Hlog1, <- !app_assoc.
        split; [reflexivity|].
        repeat (apply Forall_app; split); try assumption;
          try (constructor; [exact I | constructor]).
        rewrite Hu in Htr'. eapply Forall_impl; [|exact Htr'].
        intros e0. apply addressed_same_fixed_fields.
        apply Forall2_same_fixed_fields_sym, Hk. }
      destruct Hfinal as (H1 & H2 & tr0 & H3 & H4).
      destruct (exn_eqb e KeyboardInterrupt); cbn [fst snd BASE_URL log with_log].
      * split; [exact H1|]. split; [exact H2|].
        exists (tr0 ++ [Print (newline ++ "Simulation stopped")%string]).
        rewrite H3, <- app_assoc. split; [reflexivity|].
        apply Forall_app. split; [exact H4 | repeat constructor].
      * split; [exact H1|]. split; [exact H2|]. exists tr0. split; assumption.
    + split; [eapply Forall2_same_fixed_fields_trans; eassumption|].
      split; [congruence|].
      eexists. rewrite Hlog', Hlog, Hlog1, <- !app_assoc.
      split; [reflexivity|].
      repeat (apply Forall_app; split); try assumption;
        try (constructor; [exact I | constructor]).
      rewrite Hu in Htr'. eapply Forall_impl; [|exact Htr'].
      intros e0. apply addressed_same_fixed_fields.
      apply Forall2_same_fixed_fields_sym, Hk.
  - split; [exact Hk|]. split; [exact Hu|].
    eexists. rewrite Hlog, Hlog1, <- !app_assoc. split; [reflexivity|].
    apply Forall_app. split; assumption.
Qed.

(** X8: a run of [main] never replaces, drops, adds or reorders its
    nodes.  Whatever the endpoint, the clock, the random source and the
    interrupts do, and however far the run gets (registration pass cut
    short, an error out of the loop, Ctrl+C, still running), the list of
    nodes has [args.sensors] entries that agree, position by position,
    with the nodes built at startup in name, location, plant id, disease
    status, phase offset and gas baseline. *)
Theorem main_keeps_its_nodes (args : Args float) (ticks : nat) (w0 : world) :
  exists created w1,
    main_setup env args w0 = (Ok created, w1) /\
    let sensors := fst (snd (main env args ticks w0)) in
    List.length sensors = Z.to_nat (arg_sensors args) /\
    map name sensors = map name created /\
    map location sensors = map location created /\
    map plant_id sensors = map plant_id created /\
    map disease_status sensors = map disease_status created /\
    map time_offset sensors = map time_offset created /\
    map gas_resistance_base sensors = map gas_resistance_base created.
Proof.
  destruct (main_in_character args ticks w0)
    as (created & w1 & Hsetup & Hlen & Hk & _).
  exists created, w1. split; [exact Hsetup|]. cbv zeta.
  set (sensors := fst (snd (main env args ticks w0))) in *. clearbody sensors.
  rewrite <- Hlen. clear Hsetup Hlen.
  induction Hk as [|a b l l' Hab _ IH]; [repeat split|].
  destruct IH as (H0 & H1 & H2 & H3 & H4 & H5 & H6).
  unfold same_fixed_fields in Hab. decompose [and] Hab.
  cbn [map List.length]. repeat split; congruence.
Qed.

(** X9: every request of a run of [main] goes to the address given on
    the command line and speaks for one of the nodes of the run: a
    registration goes to [args.url/register] under the name and location
    of a node, a submission goes to [args.url/update] with a reading that
    carries the name, plant id and disease status of a node. *)
Theorem main_requests_are_in_character
  (args : Args float) (ticks : nat) (w0 : world) :
  exists created w1 tr,
    main_setup env args w0 = (Ok created, w1) /\
    log (snd (snd (main env args ticks w0))) = log w0 ++ tr /\
    forall url body res, In (Post url body res) tr ->
      exists s, In s created /\
        match body with
        | RegisterBody nm loc =>
            url = (arg_url args ++ "/register")%string /\
            nm = name s /\ loc = location s
        | ReadingBody r =>
            url = (arg_url args ++ "/update")%string /\
            r_name r = name s /\ r_plant_id r = plant_id s /\
            r_disease_status r = disease_status s
        end.
Proof.
  destruct (main_in_character args ticks w0)
    as (created & w1 & Hsetup & _ & _ & _ & tr & Hlog & Htr).
  exists created, w1, tr. split; [exact Hsetup|]. split; [exact Hlog|].
  intros url body res Hin.
  rewrite Forall_forall in Htr. specialize (Htr _ Hin).
  unfold addressed in Htr. apply Exists_exists in Htr.
  destruct Htr as (s & Hs & Hsp). exists s. split; [exact Hs|].
  destruct body; exact Hsp.
Qed.

(** ** Sleeping *)

Lemma sleep_accepted (seconds : float) (w : world) :
  fsleep seconds = None ->
  sleep env seconds w =
  (if sleep_interrupted env (sleeps w) seconds
   then Raise KeyboardInterrupt else Ok tt,
   mkWorld (BASE_URL w) (clock w) (rng w) (posts w) (S (sleeps w))
           (log w ++ [Sleep seconds])).
Proof.
  intros Hok. unfold sleep. rewrite Hok.
  destruct (sleep_interrupted env (sleeps w) seconds); reflexivity.
Qed.

Lemma sleep_refused (seconds : float) (e : exn) (w : world) :
  fsleep seconds = Some e ->
  sleep env seconds w =
  (Raise e,
   mkWorld (BASE_URL w) (clock w) (rng w) (posts w) (sleeps w)
           (log w ++ [Sleep seconds])).
Proof. intros Hno. unfold sleep. rewrite Hno. reflexivity. Qed.

(** ** The registration pass *)






(** ** The steady state of the control loop *)

Lemma send_reading_steady (Hacc : updates_accepted env) (s : Node) (w : world) :
  registered s = true ->
  exists reading res,
    send_reading env (s, w) =
    (Ok tt,
     (s, mkWorld (BASE_URL w) (S (S (clock w))) (9 + rng w) (S (posts w))
           (sleeps w)
           (log w ++ [Call "send_reading" (name s);
                      Call "generate_reading" (name s);
                      Post (BASE_URL w ++ "/update")%string
                           (ReadingBody reading) res;
                      Print (sent_line (name s) reading)]))) /\
    r_name reading = name s.
Proof.
  destruct s as [nm loc pid dis off reg base], w as [url clk rg ps sl lg].
  cbn [registered]. intros ->. run_send. gen_step. run_send.
  pose proof (Hacc ps (url ++ "/update")%string rd) as Hok.
  destruct (requests_post env ps (url ++ "/update")%string (ReadingBody rd))
    as [[code body]|e] eqn:Hres; cbn [accepted status_code] in Hok;
    [|discriminate Hok].
  run_send. rewrite Hok. flatten_log.
  exists rd, (Responds (mkResponse code body)). split; [reflexivity|exact Hname].
Qed.

Lemma steady_tick (Hacc : updates_accepted env) (sensors : list Node) :
  Forall (fun s => registered s = true) sensors ->
  forall w : world,
    exists w' tr,
      for_each (send_reading env) sensors w = (Ok tt, (sensors, w')) /\
      BASE_URL w' = BASE_URL w /\ sleeps w' = sleeps w /\
      posts w' = (posts w + List.length sensors)%nat /\
      clock w' = (clock w + 2 * List.length sensors)%nat /\
      rng w' = (rng w + 9 * List.length sensors)%nat /\
      log w' = log w ++ tr /\
      registrations tr = [] /\ assignments tr = [] /\
      submitted_by tr = map name sensors /\
      List.length (printed tr) = List.length sensors.
Proof.
  induction 1 as [|s rest Hreg _ IH]; intros w.
  - exists w, []. cbn [for_each List.length]. rewrite app_nil_r.
    repeat split; lia.
  - cbn [for_each].
    destruct (send_reading_steady Hacc s w Hreg) as (rd & res & Hrun & Hname).
    rewrite Hrun.
    match goal with
    | |- context [for_each _ rest ?w1] =>
        destruct (IH w1)
          as (w' & tr & Hrest & Hu & Hsl & Hp & Hc & Hr & Hlog
              & Hregs & Hasg & Hsub & Hpr)
    end.
    rewrite Hrest. cbn [BASE_URL clock rng posts sleeps log] in *.
    exists w', ([Call "send_reading" (name s);
                 Call "generate_reading" (name s);
                 Post (BASE_URL w ++ "/update")%string (ReadingBody rd) res;
                 Print (sent_line (name s) rd)] ++ tr).
    split; [reflexivity|].
    split; [exact Hu|]. split; [exact Hsl|].
    cbn [List.length]. split; [lia|]. split; [lia|]. split; [lia|].
    split; [rewrite Hlog, <- app_assoc; reflexivity|].
    unfold submitted_by in *.
    rewrite submissions_app, registrations_app, assignments_app, printed_app,
      map_app, length_app, Hsub, Hregs, Hasg, Hpr.
    cbn [submissions registrations assignments printed map app fst snd
         List.length].
    rewrite Hname. repeat split.
Qed.

(** X11: the steady state of the control loop.  Once every node is
    registered, as long as every update is accepted and no interrupt
    arrives, a loop whose interval [time.sleep] accepts runs tick after
    tick: each tick submits one reading per node in list order and sleeps
    once, so the submissions go round robin over the nodes; no
    registration request is made and no flag is stored; each submission
    prints one line, costs one request, two readings of the clock and
    nine draws; and the nodes stay as they are.  With an interval that
    [time.sleep] refuses (a negative number, a NaN, an infinity) the loop
    serves every node once and ends in its first sleep with the error of
    [time.sleep], although no interrupt arrived. *)
Theorem steady_state_is_round_robin (Hacc : updates_accepted env)
  (Hs : never_interrupted env) (ticks : nat) (interval : float)
  (sensors : list Node) (w : world) :
  Forall (fun s => registered s = true) sensors ->
  let n := List.length sensors in
  (fsleep interval = None ->
   exists w' tr,
     main_loop env ticks interval sensors w = (None, (sensors, w')) /\
     log w' = log w ++ tr /\
     submitted_by tr = List.concat (repeat (map name sensors) ticks) /\
     registrations tr = [] /\ assignments tr = [] /\
     List.length (printed tr) = (ticks * n)%nat /\
     posts w' = (posts w + ticks * n)%nat /\
     sleeps w' = (sleeps w + ticks)%nat /\
     clock w' = (clock w + 2 * (ticks * n))%nat /\
     rng w' = (rng w + 9 * (ticks * n))%nat) /\
  (forall e, fsleep interval = Some e -> (0 < ticks)%nat ->
   exists w' tr,
     main_loop env ticks interval sensors w = (Some e, (sensors, w')) /\
     log w' = log w ++ tr /\
     submitted_by tr = map name sensors /\
     posts w' = (posts w + n)%nat /\
     sleeps w' = sleeps w).
Proof.
  intros Hreg. cbv zeta. split.
  - intros Hi. revert w.
    induction ticks as [|ticks IH]; intros w.
    + exists w, []. cbn [main_loop]. rewrite app_nil_r. repeat split; lia.
    + cbn [main_loop].
      destruct (steady_tick Hacc sensors Hreg w)
        as (w1 & tr & Hrun & Hu & Hsl & Hp & Hc & Hr & Hlog
            & Hregs & Hasg & Hsub & Hpr).
      rewrite Hrun, (sleep_accepted _ _ Hi), Hs.
      match goal with
      | |- context [main_loop env ticks interval sensors ?w2] =>
          destruct (IH w2)
            as (w' & tr' & Hloop & Hlog' & Hsub' & Hregs' & Hasg' & Hpr'
                & Hp' & Hsl' & Hc' & Hr')
      end.
      cbn [BASE_URL clock rng posts sleeps log] in *.
      exists w', (tr ++ Sleep interval :: tr').
      split; [exact Hloop|].
      split; [rewrite Hlog', Hlog, <- !app_assoc; reflexivity|].
      unfold submitted_by in *.
      rewrite submissions_app, registrations_app, assignments_app, printed_app,
        map_app, length_app.
      cbn [submissions registrations assignments printed repeat List.concat].
      rewrite Hsub, Hsub', Hregs, Hregs', Hasg, Hasg', Hpr, Hpr'.
      repeat split; lia.
  - intros e Hno Hticks. destruct ticks as [|ticks]; [lia|].
    cbn [main_loop].
    destruct (steady_tick Hacc sensors Hreg w)
      as (w1 & tr & Hrun & Hu & Hsl & Hp & Hc & Hr & Hlog
          & Hregs & Hasg & Hsub & Hpr).
    rewrite Hrun, (sleep_refused _ _ _ Hno).
    eexists _, (tr ++ [Sleep interval]). split; [reflexivity|].
    cbn [log posts sleeps].
    split; [rewrite Hlog, <- app_assoc; reflexivity|].
    unfold submitted_by in *. rewrite submissions_app, map_app, Hsub.
    cbn [submissions map]. rewrite app_nil_r.
    repeat split; assumption.
Qed.

(** ** How a run ends *)









(** *** Statements one after the other *)






Section Sequencing.

Variable R : option exn -> list (event float pyint) -> Prop.
Hypothesis R_nil : R None [].
Hypothesis R_seq : forall r a b, R None a -> R r b -> R r (a ++ b).
Hypothesis R_sleep : forall r seconds, R r [Sleep seconds].



End Sequencing.

(** *** The two bodies *)






(** *** The run of [main] *)




(** *** Runs in which every failure is reported *)












End Properties.

(** * The properties at work on concrete runs *)

Lemma send_reading_retry_policy_witness :
  exists r s' w' reading second,
    send_reading rejected_once (sensor_03 true, initial_world) = (r, (s', w')) /\
    r = Ok tt /\ registered s' = true /\
    assignments (log w') = [false; true] /\
    submissions (log w') =
      [("http://localhost:5000/update", reading,
        reject 500 (Some "{'error': 'unknown sensor'}"));
       ("http://localhost:5000/update", reading, second)].
Proof.
  destruct (send_reading_retry_policy rejected_once (sensor_03 true)
              initial_world)
    as (r & s' & w' & tr & Hrun & Hlog & _ & Hrej & _).
  cbn [log initial_world app] in Hlog. subst tr.
  vm_compute in Hrun. inversion Hrun; subst r s' w'; clear Hrun.
  specialize (Hrej _ eq_refl ltac:(discriminate)).
  destruct Hrej as (res2 & rest & Hafter & _ & _ & _ & Hout).
  vm_compute in Hafter. inversion Hafter; subst res2 rest; clear Hafter.
  cbn [register_outcome reject status_code fst Z.eqb Pos.eqb accept] in Hout.
  destruct Hout as (reading & second & Hsub).
  eexists _, _, _, reading, second. split; [vm_compute; reflexivity|].
  do 3 (split; [reflexivity|]). exact Hsub.
Defined.

(** Against C1 as stated: after a [ConnectionError] on the first
    submission there is one submission, no store to [registered] and no
    call of [register]; the node stays registered and the call returns
    with the line [Connection failed]. *)
Lemma send_reading_connection_failure_no_retry :
  let '(r, (s', w')) :=
    send_reading unreachable_once (sensor_03 true, initial_world) in
  r = Ok tt /\
  first_submission (log w') = Some (PostRaises ConnectionError) /\
  List.length (submissions (log w')) = 1%nat /\
  calls_of "register" (log w') = 0%nat /\
  assignments (log w') = [] /\
  registrations (log w') = [] /\
  registered s' = true /\
  printed (log w') = ["[sensor_03] Connection failed"].
Proof. vm_compute. repeat split. Qed.

Lemma send_reading_generates_once_witness :
  exists r s' w' reading,
    send_reading rejected_once (sensor_03 true, initial_world) = (r, (s', w')) /\
    fst (generate_reading rejected_once
           (sensor_03 true,
            with_log initial_world (Call "send_reading" "sensor_03")))
    = Ok reading /\
    calls_of "generate_reading" (log w') = 1%nat /\
    map (fun sub => snd (fst sub)) (submissions (log w')) = [reading; reading].
Proof.
  pose proof (send_reading_generates_once rejected_once (sensor_03 true)
                initial_world) as H.
  cbv zeta in H. cbn [registered sensor_03 name] in H.
  destruct H as (reading & w2 & r & s' & w' & pre & first & rest
                 & Hgen & Hrun & _).
  exists r, s', w', reading. split; [exact Hrun|].
  split; [rewrite Hgen; reflexivity|].
  vm_compute in Hgen. injection Hgen as <- _.
  vm_compute in Hrun. injection Hrun as _ _ <-.
  split; reflexivity.
Defined.

(** Against C10 as stated: an interrupt during the registration that
    opens [send_reading] ends the call before [generate_reading] is
    called at all. *)
Lemma send_reading_interrupted_before_generating :
  let '(r, (s', w')) :=
    send_reading interrupted_request (sensor_01 false, initial_world) in
  r = Raise KeyboardInterrupt /\
  calls_of "send_reading" (log w') = 1%nat /\
  calls_of "generate_reading" (log w') = 0%nat /\
  submissions (log w') = [].
Proof. vm_compute. repeat split. Qed.




(** A rejection whose body is not JSON escapes as well: formatting the
    failure message calls [response.json()], which raises. *)
Lemma rejection_without_json_escapes :
  fst (register html_error_page (sensor_01 false, initial_world))
  = Raise JSONDecodeError /\
  fst (send_reading html_error_page (sensor_01 false, initial_world))
  = Raise JSONDecodeError /\
  fst (send_reading rejected_twice_html (sensor_01 true, initial_world))
  = Raise JSONDecodeError /\
  fst (main html_error_page (default_args 3) 5 initial_world)
  = Uncaught JSONDecodeError.
Proof. vm_compute. repeat split. Qed.


(** [register] against an endpoint that accepts, and against one that
    cannot be reached. *)
Lemma register_marks_iff_accepted_witness :
  (exists r s' w',
      register (scripted [] []) (sensor_01 false, initial_world)
      = (r, (s', w')) /\
      r = Ok tt /\ registered s' = true /\ assignments (log w') = [true]) /\
  (exists r s' w',
      register unreachable_once (sensor_01 false, initial_world)
      = (r, (s', w')) /\
      r = Ok tt /\ registered s' = false /\
      List.length (registrations (log w')) = 1%nat).
Proof.
  split.
  - destruct (register_marks_iff_accepted (scripted [] []) (sensor_01 false)
                initial_world)
      as (r & s' & w' & tr & Hrun & Hlog & _ & _ & _ & Hstore & _ & _
          & Hacc & _).
    destruct (Hacc eq_refl) as [Hr Hreg].
    exists r, s', w'. split; [exact Hrun|]. split; [exact Hr|].
    split; [exact Hreg|]. rewrite Hlog. exact Hstore.
  - destruct (register_marks_iff_accepted unreachable_once (sensor_01 false)
                initial_world)
      as (r & s' & w' & tr & Hrun & Hlog & Hreg & _ & _ & _ & _ & _ & _ & _
          & _ & Hconn).
    destruct (Hconn eq_refl) as [Hr Hs].
    exists r, s', w'. split; [exact Hrun|]. split; [exact Hr|].
    split; [rewrite Hs; reflexivity|]. rewrite Hlog.
    cbn [log initial_world app]. rewrite Hreg. reflexivity.
Defined.

(** ** End-to-end scenarios *)

(** Three nodes: one of them is infected, and the healthy baseline is
    three times the infected one. *)
Example three_nodes :
  exists sensors w,
    main_setup (scripted [] []) (default_args 3) initial_world
    = (Ok sensors, w) /\
    map (fun s => (name s, disease_status s, gas_resistance_base s)) sensors
    = [("sensor_01", "healthy", SConst 150);
       ("sensor_02", "healthy", SConst 150);
       ("sensor_03", "infected", SConst 50)] /\
    (150 == 3 * 50)%Q.
Proof. do 2 eexists. repeat split. Qed.

(** The endpoint accepts the registration, rejects the first update and
    accepts the second: one re-registration, two submissions of the same
    reading, success reported. *)
Example rejected_then_accepted :
  let env :=
    scripted [accept; reject 404 (Some "{'error': 'unknown sensor'}")] [] in
  let '(r, (s', w')) := send_reading env (sensor_01 false, initial_world) in
  r = Ok tt /\
  registered s' = true /\
  List.length (registrations (log w')) = 2%nat /\
  map (fun sub => accepted (snd sub)) (submissions (log w')) = [false; true] /\
  assignments (log w') = [true; false; true] /\
  calls_of "generate_reading" (log w') = 1%nat /\
  List.length (printed (log w')) = 4%nat.
Proof. vm_compute. repeat split. Qed.

(** The endpoint rejects both submissions: the failure is reported, the
    call returns, and the next tick runs as usual. *)
Example rejected_twice :
  let env :=
    scripted [reject 500 (Some "{'error': 'boom'}"); accept;
              reject 500 (Some "{'error': 'boom'}")] [] in
  let '(r, (s', w')) := send_reading env (sensor_01 true, initial_world) in
  r = Ok tt /\
  last (printed (log w')) "" = "[sensor_01] Update still failed: {'error': 'boom'}" /\
  List.length (submissions (log w')) = 2%nat /\
  fst (send_reading env (s', w')) = Ok tt /\
  List.length (submissions (log (snd (snd (send_reading env (s', w')))))) = 3%nat.
Proof. vm_compute. repeat split. Qed.

(** Against C3 as stated: in binary64, with 0.0499 drawn for [mq2_r0] and
    0.40049 for [mq2_rs], the reading reports the ratio 3.4, [mq2_rs]
    1088.33 and [mq2_r0] 320.0.  The quotient of the two reported values
    exceeds the reported ratio by more than 0.001, and rounded to three
    decimals it is 3.401. *)
Lemma reported_quotient_off_mq2_ratio :
  match fst (generate_reading (FL := two_sigma_float) two_sigma_draws
               (healthy_node, initial_world)) with
  | Ok reading =>
      r_mq2_ratio reading = ieee_const 3.4 /\
      r_mq2_rs reading = ieee_const 1088.33 /\
      r_mq2_r0 reading = ieee_const 320 /\
      (1 # 1000 <
       ieee_exact (r_mq2_rs reading) / ieee_exact (r_mq2_r0 reading)
       - ieee_exact (r_mq2_ratio reading))%Q /\
      ieee_round (PrimFloat.div (r_mq2_rs reading) (r_mq2_r0 reading)) 3
      = ieee_const 3.401 /\
      ieee_const 3.401 <> ieee_const 3.4
  | Raise _ => False
  end.
Proof.
  vm_compute. repeat split. intros H.
  apply (f_equal ieee_exact) in H. vm_compute in H. discriminate H.
Qed.

(** The built-in [round] on the two values the specification names. *)
Example round_two_and_five_decimals :
  ieee_round (ieee_const 151.2345) 2 = ieee_const 151.23 /\
  ieee_round (ieee_const 3.123456) 5 = ieee_const 3.12346.
Proof. vm_compute. split; reflexivity. Qed.

(** ** The formulas of a reading, spelled out *)

(** With the floats kept as terms, the third node's reading shows where
    each field comes from: [time#0] is the clock at the start of the call,
    [uniform#2] the node's phase offset, [gauss#k] the draws in order. *)
Example reading_of_the_infected_node :
  match fst (generate_reading (scripted [] []) (sensor_03 true, initial_world))
  with
  | Ok reading =>
      let t := SAdd (STime 0) (time_offset (sensor_03 true)) in
      r_temperature reading
      = SRound (SAdd (SConst 20)
                  (SAdd (SMul (SConst 2) (SSin (SDiv t (SConst 60))))
                        (SGauss 0 (SConst 0) (SConst 0.3)))) 2 /\
      r_humidity reading
      = SRound (SAdd (SConst 35)
                  (SAdd (SMul (SConst (-1.5)) (SSin (SDiv t (SConst 60))))
                        (SGauss 1 (SConst 0) (SConst 0.5)))) 2 /\
      r_gasResistance reading
      = SRound (SAdd (SConst 50)
                  (SGauss 3 (SConst 0) (SMul (SConst 50) (SConst 0.1)))) 2 /\
      r_timestamp reading = SInt (SMul (STime 1) (SConst 1000000))
  | Raise _ => False
  end.
Proof. vm_compute. repeat split. Qed.

(** Seven nodes: the third and the sixth are infected; a negative count
    builds none. *)
Example seven_nodes :
  match fst (main_setup (scripted [] []) (default_args 7) initial_world) with
  | Ok sensors =>
      map disease_status sensors
      = ["healthy"; "healthy"; "infected"; "healthy"; "healthy"; "infected";
         "healthy"]
  | Raise _ => False
  end /\
  fst (main_setup (scripted [] []) (default_args (-2)) initial_world) = Ok [].
Proof. vm_compute. split; reflexivity. Qed.

(** ** The further properties on concrete runs *)

Lemma format_0d_pads_never_cuts_witness :
  String.length (format_0d 2 7) = 2%nat /\
  format_0d 2 100 = "100" /\
  format_0d 2 7 <> format_0d 2 70.
Proof.
  destruct (format_0d_pads_never_cuts 2 7 70) as (Hlen & _ & Hinj); [lia|].
  destruct (format_0d_pads_never_cuts 2 100 0) as (_ & Hfull & _); [lia|].
  split; [exact Hlen|]. split; [apply Hfull; vm_compute; lia|].
  intros Heq. apply Hinj in Heq; lia.
Defined.

(** The same node before and after it registered, in two runs that
    differ in the base address, the requests made and the console. *)
Lemma reading_ignores_registration_and_history_witness :
  fst (generate_reading server_down (sensor_03 false, initial_world)) =
  fst (generate_reading server_down
         (sensor_03 true,
          mkWorld "http://10.0.0.7:8080" 0 0 12 3
                  [Print "[sensor_03] Registered successfully"])).
Proof.
  refine (proj1 (reading_ignores_registration_and_history server_down
                   (sensor_03 false) (sensor_03 true)
                   (initial_world : World sym symint)
                   (mkWorld "http://10.0.0.7:8080" 0 0 12 3
                      [Print "[sensor_03] Registered successfully"])
                   _ _ _)).
  - repeat split.
  - reflexivity.
  - reflexivity.
Defined.


(** Two registered nodes against an endpoint that accepts everything,
    followed for two ticks with an interval of two seconds, and with an
    interval of minus one second. *)
Lemma steady_state_is_round_robin_witness :
  (exists w',
      main_loop (scripted [] []) 2 (SConst 2)
        [sensor_01 true; sensor_03 true] initial_world
      = (None, ([sensor_01 true; sensor_03 true], w')) /\
      submitted_by (log w')
      = ["sensor_01"; "sensor_03"; "sensor_01"; "sensor_03"] /\
      posts w' = 4%nat /\ sleeps w' = 2%nat) /\
  (exists w',
      main_loop (scripted [] []) 2 (SConst (-1))
        [sensor_01 true; sensor_03 true] initial_world
      = (Some ValueError, ([sensor_01 true; sensor_03 true], w')) /\
      submitted_by (log w') = ["sensor_01"; "sensor_03"] /\
      sleeps w' = 0%nat).
Proof.
  split.
  - destruct (steady_state_is_round_robin (scripted [] []))
      with (ticks := 2%nat) (interval := SConst 2)
           (sensors := [sensor_01 true; sensor_03 true])
           (w := initial_world : World sym symint)
      as [Hgo _].
    + intros [|k] url reading; reflexivity.
    + intros [|k] seconds; reflexivity.
    + repeat constructor.
    + destruct (Hgo eq_refl)
        as (w' & tr & Hrun & Hlog & Hsub & _ & _ & _ & Hposts & Hsleeps & _).
      exists w'. split; [exact Hrun|].
      rewrite Hlog. split; [exact Hsub|].
      split; [exact Hposts | exact Hsleeps].
  - destruct (steady_state_is_round_robin (scripted [] []))
      with (ticks := 2%nat) (interval := SConst (-1))
           (sensors := [sensor_01 true; sensor_03 true])
           (w := initial_world : World sym symint)
      as [_ Hstop].
    + intros [|k] url reading; reflexivity.
    + intros [|k] seconds; reflexivity.
    + repeat constructor.
    + destruct (Hstop ValueError eq_refl ltac:(lia))
        as (w' & tr & Hrun & Hlog & Hsub & _ & Hsleeps).
      exists w'. split; [exact Hrun|].
      rewrite Hlog. split; [exact Hsub | exact Hsleeps].
Defined.

(** ** What [time.sleep] and argparse add to the ways a run ends *)

(** [--interval -1] is a number argparse accepts: the registration pass
    and the first round of readings run, then the first sleep of the loop
    raises [ValueError], which nothing catches. *)
Example negative_interval_ends_the_run :
  let '(st, (_, w)) :=
    main (scripted [] []) (mkArgs "http://localhost:5000" (SConst (-1)) 3) 5
      initial_world in
  st = Uncaught ValueError /\
  List.length (registrations (log w)) = 3%nat /\
  List.length (submissions (log w)) = 3%nat /\
  ~ In stopped_line (printed (log w)).
Proof.
  vm_compute. repeat split.
  intros H. repeat (destruct H as [H|H]; [discriminate H|]). exact H.
Qed.

(** The lengths [time.sleep] refuses in binary64, and some it takes. *)
Example lengths_time_sleep_refuses :
  ieee_sleep 86400 (ieee_const (-1)) = Some ValueError /\
  ieee_sleep 86400 (PrimFloat.div (ieee_const 0) (ieee_const 0))
  = Some ValueError /\
  ieee_sleep 86400 (PrimFloat.div (ieee_const 1) (ieee_const 0))
  = Some OverflowError /\
  ieee_sleep 86400 (ieee_const 10000000000) = Some OverflowError /\
  ieee_sleep 86400 (ieee_const 86400) = Some OSError /\
  ieee_sleep 86400 (PrimFloat.opp (ieee_const 0)) = None /\
  ieee_sleep 86400 (ieee_const 0.1) = None /\
  ieee_sleep 86400 (ieee_const 2) = None.
Proof. vm_compute. repeat split. Qed.

(** A command line argparse refuses ends the process with status 2 before
    anything is requested or printed by [main]. *)
Example usage_error_exits_with_2 :
  main_from_command_line (scripted [] []) UsageError 5 initial_world
  = (Exited 2, ([], initial_world)).
Proof. reflexivity. Qed.

(** [round] keeps the sign of a zero, and the zero-padded format puts the
    sign before the zeros. *)
Example signed_zero_and_signed_padding :
  FloatOps.Prim2SF (ieee_round (ieee_const (-0.00003)) 4)
  = SpecFloat.S754_zero true /\
  format_0d 3 (-5) = "-05".
Proof. vm_compute. split; reflexivity. Qed.
